(** * HeatWise: compatibility scoring, moderation and meeting roster

    A shallow embedding of the Python modules

      - [users_data.py]
      - [src/services/moderation.py]
      - [meetings/geolocation_meetings.py]
      - [meetings/virtual_meetings.py]
      - [meetings/speed_dating.py]

    and the properties of their functions.

    Conventions of the embedding.
      - Python [int] identifiers are [Z]; a [dict] is a [gmap], a [set] a
        [gset], a [list] a [list].
      - A score is [None], a finite float, an infinity or NaN.  The finite
        floats are the exact rationals [Q] they stand for (so [0.3] is
        [3 # 10]) and Python's numeric [==] on them is [Qeq]; rounding and
        overflow of the finite ones are not modelled.
      - The geodesic distance is computed with the float operations and
        the [math] functions of Python.  They are not code of this
        program: the distance is defined over any implementation of them
        ([FloatOps]), in which [math.sin], [math.cos], [math.sqrt] and
        [**] can raise.  The exact arithmetic on the real numbers is one
        implementation and serves in the examples.
      - Module level dictionaries are explicit states; [print] and the
        calls of [block_user] are recorded in a trace of events; a raised
        exception is the [Raise] outcome.
      - Records and rosters are values: two identifiers never share one
        dictionary or list object, which they can in Python after
        [create_user] or [create_meeting] is given one object twice.  The
        properties below are the ones that hold with sharing too. *)

From Stdlib Require Import ZArith QArith Reals Psatz Lia Ascii String.
From stdpp Require Import gmap strings list pretty.

Close Scope Q_scope.
Close Scope R_scope.
Open Scope Z_scope.
Open Scope string_scope.
Open Scope list_scope.

(** [<=] on the reals, as the test of an [if]. *)
#[global] Instance Rle_decision (x y : R) : Decision (x <= y)%R := Rle_dec x y.

(** ** Python values, exceptions and the program monad *)

Module py.

(** The exceptions the modelled code can raise. *)
Inductive exn : Type :=
| TypeError
| AttributeError
| ValueError
| KeyError (key : string).

Inductive result (A : Type) : Type :=
| Ok (a : A)
| Raise (e : exn).
Arguments Ok {A} a.
Arguments Raise {A} e.

(** A score as the code handles it: [None] or a float, which is a finite
    number, an infinity or NaN. *)
Inductive value : Type :=
| PyNone
| PyNum (q : Q)
| PyInf (positive : bool)
| PyNaN.

(** The values stored in the user records. *)
#[warnings="-register-all"]
Inductive pyobj : Type :=
| PStr (s : string)
| PInt (z : Z)
| PBool (b : bool)
| PList (l : list pyobj).

(** What a run leaves behind besides the state. *)
Inductive event : Type :=
| EPrint (line : string)
| EBlockUser (user_id : Z) (reason : string).

(** A program over a state [S]: outcome, final state, trace. *)
Definition M (S A : Type) : Type := S → result A * S * list event.

Definition ret {S A} (a : A) : M S A := λ s, (Ok a, s, []).

Definition bind {S A B} (m : M S A) (f : A → M S B) : M S B :=
  λ s, match m s with
       | (Ok a, s', t) =>
           match f a s' with
           | (r, s'', t') => (r, s'', t ++ t')
           end
       | (Raise e, s', t) => (Raise e, s', t)
       end.

Definition get {S} : M S S := λ s, (Ok s, s, []).
Definition put {S} (s : S) : M S unit := λ _, (Ok tt, s, []).
Definition modify {S} (f : S → S) : M S unit := λ s, (Ok tt, f s, []).
Definition raise {S A} (e : exn) : M S A := λ s, (Raise e, s, []).
Definition print {S} (line : string) : M S unit :=
  λ s, (Ok tt, s, [EPrint line]).
Definition called {S} (e : event) : M S unit := λ s, (Ok tt, s, [e]).
Definition lift {S A} (r : result A) : M S A := λ s, (r, s, []).

(** [d[key]] on a dictionary with string keys. *)
Definition getitem {A} (d : gmap string A) (key : string) : result A :=
  match d !! key with
  | Some a => Ok a
  | None => Raise (KeyError key)
  end.

(** [d.get(key, default)]. *)
Definition dict_get {A} (d : gmap string A) (key : string) (default : A) : A :=
  match d !! key with
  | Some a => a
  | None => default
  end.

(** Truth value of an expression that is a dictionary or [None]:
    [None] and the empty dictionary are false. *)
Definition truthy {K} `{Countable K} {A} (o : option (gmap K A)) : bool :=
  match o with
  | None => false
  | Some d => negb (bool_decide (d = ∅ :> gmap K A))
  end.

(** Use of a value that is a dictionary or [None] as a dictionary. *)
Definition as_dict {K} `{Countable K} {A} (o : option (gmap K A)) : result (gmap K A) :=
  match o with
  | Some d => Ok d
  | None => Raise AttributeError
  end.

(** An infinity times (or divided by) a finite number [w]. *)
Definition scale_inf (positive : bool) (w : Q) : value :=
  if Qlt_le_dec 0 w then PyInf positive
  else if Qlt_le_dec w 0 then PyInf (negb positive)
  else PyNaN.

(** [v * w] for a score [v] and a float literal [w]. *)
Definition mul (v : value) (w : Q) : result value :=
  match v with
  | PyNum q => Ok (PyNum (q * w)%Q)
  | PyInf positive => Ok (scale_inf positive w)
  | PyNaN => Ok PyNaN
  | PyNone => Raise TypeError
  end.

(** [v + w] on scores. *)
Definition add (v w : value) : result value :=
  match v, w with
  | PyNone, _ | _, PyNone => Raise TypeError
  | PyNaN, _ | _, PyNaN => Ok PyNaN
  | PyNum p, PyNum q => Ok (PyNum (p + q)%Q)
  | PyInf positive, PyNum _ | PyNum _, PyInf positive => Ok (PyInf positive)
  | PyInf positive, PyInf positive' =>
      Ok (if Bool.eqb positive positive' then PyInf positive else PyNaN)
  end.

(** [v / w] for a score [v] and a non-zero literal [w]. *)
Definition div (v : value) (w : Q) : result value :=
  match v with
  | PyNum q => Ok (PyNum (q / w)%Q)
  | PyInf positive => Ok (scale_inf positive w)
  | PyNaN => Ok PyNaN
  | PyNone => Raise TypeError
  end.

(** [max(v, w)] and [min(v, w)] of two arguments: the first one is kept
    unless the second is strictly greater (smaller); every comparison
    with NaN is false, so a NaN first argument is kept. *)
Definition max (v : value) (w : Q) : result value :=
  match v with
  | PyNum q => Ok (PyNum (if Qlt_le_dec q w then w else q))
  | PyInf true => Ok (PyInf true)
  | PyInf false => Ok (PyNum w)
  | PyNaN => Ok PyNaN
  | PyNone => Raise TypeError
  end.

Definition min (v : value) (w : Q) : result value :=
  match v with
  | PyNum q => Ok (PyNum (if Qlt_le_dec w q then w else q))
  | PyInf true => Ok (PyNum w)
  | PyInf false => Ok (PyInf false)
  | PyNaN => Ok PyNaN
  | PyNone => Raise TypeError
  end.

(** Sequencing of fallible pure steps. *)
Definition rbind {A B} (r : result A) (f : A → result B) : result B :=
  match r with
  | Ok a => f a
  | Raise e => Raise e
  end.

End py.

#[export] Instance M_ret {S} : MRet (py.M S) := λ A a, py.ret a.
#[export] Instance M_bind {S} : MBind (py.M S) := λ A B f m, py.bind m f.
#[export] Instance result_ret : MRet py.result := λ A a, py.Ok a.
#[export] Instance result_bind : MBind py.result := λ A B f r, py.rbind r f.

(** ** Python floats and the [math] module *)

(** The float operations that [calculate_distance] uses, on a type [F] of
    floats.  [f_of_Z] is an [int] used where a float is expected; [f_le]
    is [<=]; [f_pow2 x] is [x ** 2].  The operations that can raise for
    some float ([ValueError] of [math.sin], [math.cos] and [math.sqrt],
    [OverflowError] of [**]) return a result. *)
Class FloatOps (F : Type) : Type := {
  f_of_Z : Z → F;
  f_add : F → F → F;
  f_sub : F → F → F;
  f_mul : F → F → F;
  f_div : F → F → F;
  f_pow2 : F → py.result F;
  f_le : F → F → bool;
  math_radians : F → F;
  math_sin : F → py.result F;
  math_cos : F → py.result F;
  math_sqrt : F → py.result F;
  math_atan2 : F → F → F
}.

(** The exact arithmetic of the real numbers as an implementation: what
    the floats approximate.  Only [math.sqrt] of a negative number raises
    here. *)
Module exact.
Import py.

Definition atan2 (y x : R) : R :=
  if Rlt_dec 0 x then atan (y / x)
  else if Rlt_dec x 0 then
    (if Rle_dec 0 y then atan (y / x) + PI else atan (y / x) - PI)%R
  else if Rlt_dec 0 y then (PI / 2)%R
  else if Rlt_dec y 0 then (- (PI / 2))%R
  else 0%R.

Definition sqrt (x : R) : result R :=
  if Rlt_dec x 0 then Raise ValueError else Ok (R_sqrt.sqrt x).

#[export] Instance float : FloatOps R := {|
  f_of_Z := IZR;
  f_add := Rplus;
  f_sub := Rminus;
  f_mul := Rmult;
  f_div := Rdiv;
  f_pow2 := λ x, Ok (x * x)%R;
  f_le := λ x y, bool_decide (x <= y)%R;
  math_radians := λ x, (x * (PI / 180))%R;
  math_sin := λ x, Ok (sin x);
  math_cos := λ x, Ok (cos x);
  math_sqrt := sqrt;
  math_atan2 := atan2
|}.

End exact.

(** ** users_data.py *)

Module users_data.
Import py.

(** The module level dictionaries [user_data], [users_consent] and
    [blocked_users]. *)
Record state : Type := State {
  user_data : gmap Z (gmap string pyobj);
  users_consent : gmap Z bool;
  blocked_users : gmap Z string
}.

Definition set_user_data (f : gmap Z (gmap string pyobj) → gmap Z (gmap string pyobj))
    (s : state) : state :=
  State (f (user_data s)) (users_consent s) (blocked_users s).

Definition set_blocked_users (f : gmap Z string → gmap Z string) (s : state) : state :=
  State (user_data s) (users_consent s) (f (blocked_users s)).

(** [create_user(user_id, user_info)].  The stored record is the
    caller's [user_info] object, so the second assignment also clears the
    caller's ["interests"]; only the content of [user_data] is modelled. *)
Definition create_user (user_id : Z) (user_info : gmap string pyobj) : M state unit :=
  s ← get;
  if bool_decide (user_data s !! user_id = None) then
    modify (set_user_data (λ ud, <[user_id := user_info]> ud));;
    modify (set_user_data (λ ud,
      alter (λ info, <["interests" := PList []]> info) user_id ud))
  else
    print ("Error: User with ID " +:+ pretty user_id +:+ " already exists.").

(** [get_user(user_id)]. *)
Definition get_user (user_id : Z) : M state (option (gmap string pyobj)) :=
  s ← get; ret (user_data s !! user_id).

(** [block_user(user_id, reason)]; the call is recorded in the trace. *)
Definition block_user (user_id : Z) (reason : string) : M state unit :=
  called (EBlockUser user_id reason);;
  modify (set_blocked_users (λ b, <[user_id := reason]> b)).

(** [is_user_blocked(user_id)]. *)
Definition is_user_blocked (user_id : Z) : M state bool :=
  s ← get; ret (bool_decide (is_Some (blocked_users s !! user_id))).

(** [unblock_user(user_id)]. *)
Definition unblock_user (user_id : Z) : M state unit :=
  blocked ← is_user_blocked user_id;
  if (blocked : bool) then modify (set_blocked_users (λ b, delete user_id b))
  else print ("Error: User " +:+ pretty user_id +:+ " is not currently blocked.").

Definition set_users_consent (f : gmap Z bool → gmap Z bool) (s : state) : state :=
  State (user_data s) (f (users_consent s)) (blocked_users s).

(** [d[key]] on a dictionary keyed by user identifiers. *)
Definition getitem_id {A} (d : gmap Z A) (key : Z) : result A :=
  match d !! key with
  | Some a => Ok a
  | None => Raise (KeyError (pretty key))
  end.

(** The record that the getters and setters below store for a user that
    [user_data] does not know. *)
Definition default_record : gmap string pyobj :=
  {[ "games_preferences" := PList [];
     "speed_dating_schedule" := PList [];
     "blind_matching_schedule" := PList [];
     "games_schedule" := PList [] ]}.

(** The block [if user_id not in user_data: user_data[user_id] = {...}]
    that opens those functions. *)
Definition ensure_record (user_id : Z) : M state unit :=
  s ← get;
  if bool_decide (user_data s !! user_id = None)
  then modify (set_user_data (λ ud, <[user_id := default_record]> ud))
  else ret tt.

(** [return user_data[user_id][key]]. *)
Definition read_field (user_id : Z) (key : string) : M state pyobj :=
  s ← get;
  record ← lift (getitem_id (user_data s) user_id);
  lift (getitem record key).

(** [user_data[user_id][key] = v].  The record is updated as a value; in
    Python the write is seen through every identifier that holds the same
    dictionary object. *)
Definition write_field (user_id : Z) (key : string) (v : pyobj) : M state unit :=
  s ← get;
  record ← lift (getitem_id (user_data s) user_id);
  modify (set_user_data (λ ud, <[user_id := <[key := v]> record]> ud)).

(** [get_user_geolocation_consent(user_id)]. *)
Definition get_user_geolocation_consent (user_id : Z) : M state bool :=
  s ← get;
  (if bool_decide (users_consent s !! user_id = None) then
     ensure_record user_id;;
     modify (set_users_consent (λ c, <[user_id := false]> c))
   else ret tt);;
  s ← get;
  lift (getitem_id (users_consent s) user_id).

(** [set_user_geolocation_consent(user_id, consent)]. *)
Definition set_user_geolocation_consent (user_id : Z) (consent : bool) : M state unit :=
  modify (set_users_consent (λ c, <[user_id := consent]> c)).

(** [get_user_game_preferences(user_id)]. *)
Definition get_user_game_preferences (user_id : Z) : M state pyobj :=
  ensure_record user_id;; read_field user_id "games_preferences".

(** [set_user_game_preferences(user_id, preferences)]. *)
Definition set_user_game_preferences (user_id : Z) (preferences : pyobj) : M state unit :=
  ensure_record user_id;; write_field user_id "games_preferences" preferences.

(** [get_user_speed_dating_schedule(user_id)]. *)
Definition get_user_speed_dating_schedule (user_id : Z) : M state pyobj :=
  ensure_record user_id;; read_field user_id "speed_dating_schedule".

(** [set_user_speed_dating_schedule(user_id, schedule)]. *)
Definition set_user_speed_dating_schedule (user_id : Z) (schedule : pyobj) : M state unit :=
  ensure_record user_id;; write_field user_id "speed_dating_schedule" schedule.

(** [get_user_blind_matching_schedule(user_id)]. *)
Definition get_user_blind_matching_schedule (user_id : Z) : M state pyobj :=
  ensure_record user_id;; read_field user_id "blind_matching_schedule".

(** [set_user_blind_matching_schedule(user_id, schedule)]. *)
Definition set_user_blind_matching_schedule (user_id : Z) (schedule : pyobj) : M state unit :=
  ensure_record user_id;; write_field user_id "blind_matching_schedule" schedule.

End users_data.

(** ** src/services/moderation.py *)

Module moderation.
Import py.

(** [str.lower()] on the ASCII range: [A]-[Z] go to [a]-[z], every other
    character is kept.  The blocklist is ASCII, and no character outside
    ASCII has one of its letters as lower case form. *)
Definition lower_char (c : ascii) : ascii :=
  let n := N_of_ascii c in
  if ((65 <=? n) && (n <=? 90))%N then ascii_of_N (n + 32) else c.

Fixpoint lower (s : string) : string :=
  match s with
  | EmptyString => EmptyString
  | String c s' => String (lower_char c) (lower s')
  end.

(** [t.startswith(w)]. *)
Fixpoint startswith (w t : string) : bool :=
  match w, t with
  | EmptyString, _ => true
  | String a w', String b t' => bool_decide (a = b) && startswith w' t'
  | String _ _, EmptyString => false
  end.

(** [w in t] on strings: [w] occurs in [t] at some position. *)
Fixpoint str_in (w t : string) : bool :=
  startswith w t ||
  match t with
  | EmptyString => false
  | String _ t' => str_in w t'
  end.

Definition bad_words : list string := ["badword1"; "badword2"; "badword3"].

(** Specification side: [w] occurs in [text] when case is ignored, that
    is, some substring of [text] and [w] have the same lower case form. *)
Definition occurs_ignoring_case (w text : string) : Prop :=
  ∃ pre sub post, text = pre +:+ sub +:+ post ∧ lower sub = lower w.

(** The [for word in bad_words] loop of [moderate_text], which returns
    from the function at the first word found. *)
Fixpoint moderate_text_loop (words : list string) (text : string) (sender_id : Z)
    : M users_data.state bool :=
  match words with
  | [] => ret true
  | word :: words' =>
      if str_in word (lower text) then
        users_data.block_user sender_id "Inappropriate language used.";;
        ret false
      else moderate_text_loop words' text sender_id
  end.

(** [moderate_text(text, sender_id, recipient_id)]. *)
Definition moderate_text (text : string) (sender_id recipient_id : Z)
    : M users_data.state bool :=
  moderate_text_loop bad_words text sender_id.

(** [d[key]] on a dictionary with integer keys. *)
Definition getitem_int {A} (d : gmap Z A) (key : Z) : result A :=
  match d !! key with
  | Some a => Ok a
  | None => Raise (KeyError (pretty key))
  end.

(** [flag_user(user_id)], on the module level dictionary [user_flags]. *)
Definition flag_user (user_id : Z) : M (gmap Z Z) bool :=
  user_flags ← get;
  (if bool_decide (user_flags !! user_id = None)
   then put (<[user_id := 0]> user_flags)
   else ret tt);;
  user_flags ← get;
  n ← lift (getitem_int user_flags user_id);
  put (<[user_id := n + 1]> user_flags);;
  user_flags ← get;
  n ← lift (getitem_int user_flags user_id);
  if bool_decide (3 ≤ n)%Z then ret true else ret false.

(** [get_dangerous_users()].  The Python list follows the insertion order
    of [user_flags], which the map does not keep: only the members of the
    result are meaningful. *)
Definition get_dangerous_users : M (gmap Z Z) (list Z) :=
  user_flags ← get;
  ret ((filter (λ entry, 3 ≤ entry.2)%Z (map_to_list user_flags)).*1).

(** [flag_user(user_id)] called [n] times in a row; the answers, first
    call first. *)
Fixpoint flag_user_times (n : nat) (user_id : Z) : M (gmap Z Z) (list bool) :=
  match n with
  | O => ret []
  | S n' =>
      answer ← flag_user user_id;
      answers ← flag_user_times n' user_id;
      ret (answer :: answers)
  end.

End moderation.

(** ** users_data.py: the function that reads standard input *)

Module users_data_io.
Import py users_data.

(** [request_user_geolocation_consent(user_id)], where [response] is the
    line that [input] reads.  The prompt of [input] is not a [print] and
    is not recorded. *)
Definition request_user_geolocation_consent (response : string) (user_id : Z)
    : M state bool :=
  print "This app needs access to your geolocation to find nearby users.";;
  if bool_decide (moderation.lower response = "yes") then
    set_user_geolocation_consent user_id true;; ret true
  else
    set_user_geolocation_consent user_id false;; ret false.

End users_data_io.

(** ** meetings/virtual_meetings.py *)

Module virtual_meetings.
Import py.

(** [l.remove(x)]: the first occurrence of [x] goes. *)
Fixpoint list_remove (x : Z) (l : list Z) : list Z :=
  match l with
  | [] => []
  | y :: l' => if bool_decide (x = y) then l' else y :: list_remove x l'
  end.

Definition not_found (meeting_id : Z) : string :=
  "Error: Meeting with ID " +:+ pretty meeting_id +:+ " not found.".

(** [create_meeting(users)], on the module level dictionary [meetings]. *)
Definition create_meeting (users : list Z) : M (gmap Z (list Z)) Z :=
  meetings ← get;
  let meeting_id := Z.of_nat (size meetings) + 1 in
  put (<[meeting_id := users]> meetings);;
  ret meeting_id.

(** [join_meeting(meeting_id, user_id)].  The roster is updated as a
    value, here and in [remove_user_from_meeting]; in Python [append] and
    [remove] change the list object, and with it every meeting that was
    created from the same list. *)
Definition join_meeting (meeting_id user_id : Z) : M (gmap Z (list Z)) unit :=
  meetings ← get;
  match meetings !! meeting_id with
  | Some participants => put (<[meeting_id := participants ++ [user_id]]> meetings)
  | None => print (not_found meeting_id)
  end.

(** [end_meeting(meeting_id)]. *)
Definition end_meeting (meeting_id : Z) : M (gmap Z (list Z)) unit :=
  meetings ← get;
  match meetings !! meeting_id with
  | Some _ => put (delete meeting_id meetings)
  | None => print (not_found meeting_id)
  end.

(** [remove_user_from_meeting(meeting_id, user_id)]: the outer [if] has
    no [else]. *)
Definition remove_user_from_meeting (meeting_id user_id : Z) : M (gmap Z (list Z)) unit :=
  meetings ← get;
  match meetings !! meeting_id with
  | Some participants =>
      if bool_decide (user_id ∈ participants) then
        put (<[meeting_id := list_remove user_id participants]> meetings)
      else
        print ("Error: User with ID " +:+ pretty user_id +:+
               " not found in meeting " +:+ pretty meeting_id +:+ ".")
  | None => ret tt
  end.

(** The identifiers in use are [1 .. len(meetings)], as they are when
    meetings have only been created. *)
Definition contiguous_ids (meetings : gmap Z (list Z)) : Prop :=
  ∀ meeting_id,
    is_Some (meetings !! meeting_id) ↔ (1 ≤ meeting_id ≤ Z.of_nat (size meetings))%Z.

Section compatibility.
(** [get_user_data], [compare_interests] and
    [compare_psychological_traits] are imported from [users_data],
    which does not define them: they are parameters here. *)
Variable get_user_data : Z → option (gmap string pyobj).
Variable compare_interests : pyobj → pyobj → result value.
Variable compare_psychological_traits : Z → Z → result value.

(** The last two statements of [get_meeting_compatibility]: the mean
    of the two scores, clamped. *)
Definition total_compatibility (interests_compatibility traits_compatibility : value)
    : result value :=
  sum ← add interests_compatibility traits_compatibility;
  total ← div sum 2;
  lower ← max total 0;
  min lower 1.

(** [get_meeting_compatibility(user_id1, user_id2)]. *)
Definition get_meeting_compatibility (user_id1 user_id2 : Z) : result value :=
  let user1_data := get_user_data user_id1 in
  let user2_data := get_user_data user_id2 in
  if negb (truthy user1_data) || negb (truthy user2_data) then Ok (PyNum 0)
  else
    user1_data ← as_dict user1_data;
    user2_data ← as_dict user2_data;
    interests_compatibility ←
      compare_interests (dict_get user1_data "interests" (PList []))
                        (dict_get user2_data "interests" (PList []));
    traits_compatibility ← compare_psychological_traits user_id1 user_id2;
    total_compatibility interests_compatibility traits_compatibility.
End compatibility.

End virtual_meetings.

(** ** meetings/geolocation_meetings.py *)

Module geolocation_meetings.
Import py.

(** [class User], with coordinates that are floats of type [F]. *)
Record User (F : Type) : Type := mkUser {
  user_id : Z;
  name : string;
  latitude : F;
  longitude : F
}.
Arguments mkUser {F} user_id name latitude longitude.
Arguments user_id {F} u.
Arguments name {F} u.
Arguments latitude {F} u.
Arguments longitude {F} u.

(** The objects [get_meeting_compatibility] receives: it reads their
    [user_id], [name], [interests] and [traits] attributes. *)
Record Profile : Type := mkProfile {
  profile_user_id : Z;
  profile_name : string;
  interests : list string;
  traits : list string
}.

(** [compare_interests(user1_interests, user2_interests)]. *)
Definition compare_interests (user1_interests user2_interests : list string) : Q :=
  let common_interests : gset string :=
    list_to_set user1_interests ∩ list_to_set user2_interests in
  let all_interests : gset string :=
    list_to_set user1_interests ∪ list_to_set user2_interests in
  if bool_decide (all_interests = ∅) then 0.5%Q
  else (inject_Z (Z.of_nat (size common_interests)) /
        inject_Z (Z.of_nat (size all_interests)))%Q.

(** [compare_psychological_traits(user1_traits, user2_traits)]: the body
    is the docstring alone, so the call evaluates to [None]. *)
Definition compare_psychological_traits (user1_traits user2_traits : list string) : value :=
  PyNone.

Section distance.
Context {F : Type} `{FloatOps F}.

(** [calculate_distance(user1, user2)].  The calls that can raise are
    sequenced in the order in which Python evaluates them. *)
Definition calculate_distance (user1 user2 : User F) : result F :=
  let R_ := f_of_Z 6371 in
  let lat1 := math_radians (latitude user1) in
  let lon1 := math_radians (longitude user1) in
  let lat2 := math_radians (latitude user2) in
  let lon2 := math_radians (longitude user2) in
  let dlat := f_sub lat2 lat1 in
  let dlon := f_sub lon2 lon1 in
  sin_dlat ← math_sin (f_div dlat (f_of_Z 2));
  sin_dlat2 ← f_pow2 sin_dlat;
  cos_lat1 ← math_cos lat1;
  cos_lat2 ← math_cos lat2;
  sin_dlon ← math_sin (f_div dlon (f_of_Z 2));
  sin_dlon2 ← f_pow2 sin_dlon;
  let a := f_add sin_dlat2 (f_mul (f_mul cos_lat1 cos_lat2) sin_dlon2) in
  root_a ← math_sqrt a;
  root_1_a ← math_sqrt (f_sub (f_of_Z 1) a);
  let c := f_mul (f_of_Z 2) (math_atan2 root_a root_1_a) in
  let distance := f_mul R_ c in
  Ok distance.

(** The [for user in users] loop of [find_users_within_radius], with the
    list built so far.  The distance is computed, and can raise, only for
    a user whose identifier is not the target's. *)
Fixpoint find_users_loop (target_user : User F) (users : list (User F)) (radius : F)
    (users_within_radius : list (User F)) : result (list (User F)) :=
  match users with
  | [] => Ok users_within_radius
  | user :: users' =>
      if bool_decide (user_id user ≠ user_id target_user) then
        distance ← calculate_distance target_user user;
        if f_le distance radius
        then find_users_loop target_user users' radius (users_within_radius ++ [user])
        else find_users_loop target_user users' radius users_within_radius
      else find_users_loop target_user users' radius users_within_radius
  end.

(** [find_users_within_radius(target_user, users, radius)]. *)
Definition find_users_within_radius (target_user : User F) (users : list (User F))
    (radius : F) : result (list (User F)) :=
  find_users_loop target_user users radius [].

(** Specification side: the distance from the target to the user is
    computed and is at most the radius. *)
Definition within_radius (target_user : User F) (radius : F) (user : User F) : bool :=
  match calculate_distance target_user user with
  | Ok distance => f_le distance radius
  | Raise _ => false
  end.

End distance.

(** The statement that combines the scores in
    [get_meeting_compatibility]. *)
Definition compatibility_rate (proximity_score interests_score traits_score : value)
    : result value :=
  p ← mul proximity_score 0.3;
  i ← mul interests_score 0.4;
  pi ← add p i;
  t ← mul traits_score 0.3;
  add pi t.

Section compatibility.
Context {F : Type} `{FloatOps F}.
(** [get_user_location] is imported from [users_data], which does not
    define it: it is a parameter here. *)
Variable get_user_location : Z → option (gmap string F).

(** [get_meeting_compatibility(user1, user2)]. *)
Definition get_meeting_compatibility (user1 user2 : Profile) : M unit value :=
  let location1 := get_user_location (profile_user_id user1) in
  let location2 := get_user_location (profile_user_id user2) in
  if negb (truthy location1) || negb (truthy location2) then
    print "Could not retrieve user locations.";;
    ret (PyNum 0)
  else
    location1 ← lift (as_dict location1);
    location2 ← lift (as_dict location2);
    lat1 ← lift (getitem location1 "latitude");
    lon1 ← lift (getitem location1 "longitude");
    lat2 ← lift (getitem location2 "latitude");
    lon2 ← lift (getitem location2 "longitude");
    distance ← lift (calculate_distance
                       (mkUser (profile_user_id user1) (profile_name user1) lat1 lon1)
                       (mkUser (profile_user_id user2) (profile_name user2) lat2 lon2));
    let proximity_score :=
      if f_le distance (f_of_Z 10) then PyNum 1 else PyNum 0.1 in
    let interests_score := PyNum (compare_interests (interests user1) (interests user2)) in
    let traits_score := compare_psychological_traits (traits user1) (traits user2) in
    lift (compatibility_rate proximity_score interests_score traits_score).
End compatibility.

Section save.
(** The floats, and how Python writes one in an f-string. *)
Variable F : Type.
Variable float_repr : F → string.

(** [save_user_geolocation(user_id, latitude, longitude)], where
    [response] is the line that [input] reads if the user is asked. *)
Definition save_user_geolocation (response : string) (user_id : Z) (latitude longitude : F)
    : M users_data.state bool :=
  let update :=
    print ("Updating geolocation for user " +:+ pretty user_id +:+ ": Latitude = " +:+
           float_repr latitude +:+ ", Longitude = " +:+ float_repr longitude);;
    ret true in
  consent ← users_data.get_user_geolocation_consent user_id;
  if negb consent then
    granted ← users_data_io.request_user_geolocation_consent response user_id;
    if negb granted then
      print ("Warning: User " +:+ pretty user_id +:+
             " has not granted geolocation consent. Location not saved.");;
      ret false
    else update
  else update.
End save.
Arguments save_user_geolocation {F} float_repr response user_id latitude longitude.

End geolocation_meetings.

(** ** meetings/speed_dating.py *)

Module speed_dating.

(** The expression bound to [interests_compatibility] in
    [get_speed_dating_compatibility], from the two [interests] lists. *)
Definition interests_compatibility (interests1 interests2 : list string) : Q :=
  let inter : gset string := list_to_set interests1 ∩ list_to_set interests2 in
  let union : gset string := list_to_set interests1 ∪ list_to_set interests2 in
  if bool_decide (0 < size union)%nat
  then (inject_Z (Z.of_nat (size inter)) / inject_Z (Z.of_nat (size union)))%Q
  else 0%Q.

End speed_dating.

(** * Properties *)

Import py.

(** Unfolds the monad operations of a run. *)
Ltac run :=
  unfold mbind, mret, M_bind, M_ret, result_bind, result_ret,
    py.bind, py.rbind, py.ret, py.get, py.put, py.modify, py.print,
    py.called, py.lift, py.raise; simpl.

(** ** users_data *)

(** [create_user] on a free identifier: the record is stored with an
    empty [interests] list, the other dictionaries are untouched. *)
Lemma create_user_fresh (user_id : Z) (user_info : gmap string pyobj)
    (s : users_data.state) :
  users_data.user_data s !! user_id = None →
  users_data.create_user user_id user_info s =
    (Ok tt,
     users_data.State
       (<[user_id := <["interests" := PList []]> user_info]> (users_data.user_data s))
       (users_data.users_consent s) (users_data.blocked_users s),
     []).
Proof.
  intros Hfree. unfold users_data.create_user. run.
  rewrite bool_decide_eq_true_2 by exact Hfree. simpl.
  unfold users_data.set_user_data. simpl.
  do 2 f_equal. f_equal.
  apply map_eq. intros k. rewrite lookup_alter.
  destruct (decide (user_id = k)) as [->|Hne].
  - rewrite !lookup_insert_eq. reflexivity.
  - rewrite !lookup_insert_ne by exact Hne. reflexivity.
Qed.

(** [create_user] on an identifier in use: one error line, same state. *)
Lemma create_user_taken (user_id : Z) (user_info : gmap string pyobj)
    (s : users_data.state) :
  is_Some (users_data.user_data s !! user_id) →
  users_data.create_user user_id user_info s =
    (Ok tt, s,
     [EPrint ("Error: User with ID " +:+ pretty user_id +:+ " already exists.")]).
Proof.
  intros [old Hold]. unfold users_data.create_user. run.
  rewrite bool_decide_eq_false_2 by (rewrite Hold; discriminate).
  reflexivity.
Qed.

(** C10. [create_user] on an identifier that is not in [user_data] stores
    [user_info] with its ["interests"] entry set to the empty list,
    whatever [user_info] held there, and prints nothing; on an identifier
    that is in [user_data] it prints the error line and leaves every
    dictionary, so also the stored record, as it was. *)
Theorem create_user_spec (user_id : Z) (user_info : gmap string pyobj)
    (s : users_data.state) :
  (users_data.user_data s !! user_id = None →
   ∃ s', users_data.create_user user_id user_info s = (Ok tt, s', []) ∧
     users_data.user_data s' !! user_id = Some (<["interests" := PList []]> user_info) ∧
     (∀ stored, users_data.user_data s' !! user_id = Some stored →
        stored !! "interests" = Some (PList []) ∧
        ∀ key, key ≠ "interests" → stored !! key = user_info !! key)) ∧
  (∀ old, users_data.user_data s !! user_id = Some old →
   users_data.create_user user_id user_info s =
     (Ok tt, s,
      [EPrint ("Error: User with ID " +:+ pretty user_id +:+ " already exists.")])).
Proof.
  split.
  - intros Hfree. eexists. split; [apply create_user_fresh; exact Hfree|].
    simpl. rewrite lookup_insert_eq. split; [reflexivity|].
    intros stored [= <-]. split.
    + apply lookup_insert_eq.
    + intros key Hkey. apply lookup_insert_ne. congruence.
  - intros old Hold. apply create_user_taken. rewrite Hold. eauto.
Qed.

Lemma create_user_spec_witness :
  (∃ s', users_data.create_user 1 {["interests" := PList [PStr "music"]]}
           (users_data.State ∅ ∅ ∅) = (Ok tt, s', []) ∧
     users_data.user_data s' !! 1 =
       Some (<["interests" := PList []]> {["interests" := PList [PStr "music"]]})) ∧
  users_data.create_user 1 {["interests" := PList [PStr "music"]]}
    (users_data.State {[1 := ∅]} ∅ ∅) =
    (Ok tt, users_data.State {[1 := ∅]} ∅ ∅,
     [EPrint "Error: User with ID 1 already exists."]).
Proof.
  split.
  - destruct (proj1 (create_user_spec 1 {["interests" := PList [PStr "music"]]}
                       (users_data.State ∅ ∅ ∅)) (lookup_empty 1)) as (s' & Hrun & Hget & _).
    exists s'. split; assumption.
  - exact (proj2 (create_user_spec 1 {["interests" := PList [PStr "music"]]}
                    (users_data.State {[1 := ∅]} ∅ ∅)) ∅ (lookup_singleton_eq 1 ∅)).
Defined.

(** ** moderation: flag_user *)

(** One call of [flag_user]: the counter, 0 when absent, goes up by one
    and the answer is whether it has reached 3. *)
Lemma flag_user_run (user_id : Z) (user_flags : gmap Z Z) :
  moderation.flag_user user_id user_flags =
    (Ok (bool_decide (3 ≤ default 0 (user_flags !! user_id) + 1)%Z),
     <[user_id := default 0 (user_flags !! user_id) + 1]> user_flags, []).
Proof.
  unfold moderation.flag_user. run.
  destruct (user_flags !! user_id) as [n|] eqn:Hn; simpl.
  - unfold moderation.getitem_int. rewrite Hn. simpl.
    rewrite lookup_insert_eq. simpl.
    case_bool_decide; reflexivity.
  - unfold moderation.getitem_int. rewrite lookup_insert_eq. simpl.
    rewrite lookup_insert_eq. simpl. rewrite insert_insert_eq.
    reflexivity.
Qed.

(** C7. From a state where [user_id] has no entry in [user_flags], the
    first and the second call of [flag_user] return [False] and the third
    returns [True]; the counter is 1, 2 and 3 after them. *)
Theorem flag_user_third_call (user_id : Z) (user_flags : gmap Z Z) :
  user_flags !! user_id = None →
  moderation.flag_user user_id user_flags =
    (Ok false, <[user_id := 1]> user_flags, []) ∧
  moderation.flag_user user_id (<[user_id := 1]> user_flags) =
    (Ok false, <[user_id := 2]> user_flags, []) ∧
  moderation.flag_user user_id (<[user_id := 2]> user_flags) =
    (Ok true, <[user_id := 3]> user_flags, []).
Proof.
  intros Hnone. rewrite !flag_user_run, Hnone, !lookup_insert_eq, !insert_insert_eq.
  simpl. repeat split.
Qed.

Lemma flag_user_third_call_witness :
  moderation.flag_user 7 ∅ = (Ok false, <[7 := 1]> ∅, []) ∧
  moderation.flag_user 7 (<[7 := 1]> ∅) = (Ok false, <[7 := 2]> ∅, []) ∧
  moderation.flag_user 7 (<[7 := 2]> ∅) = (Ok true, <[7 := 3]> ∅, []).
Proof. exact (flag_user_third_call 7 ∅ (lookup_empty 7)). Defined.

(** ** virtual_meetings: the roster *)

(** C8. On a [meeting_id] that is not in [meetings], [join_meeting] and
    [end_meeting] print the not-found line and [remove_user_from_meeting]
    prints nothing; all three return normally and leave [meetings] as it
    was. *)
Theorem unknown_meeting_operations (meeting_id user_id : Z) (meetings : gmap Z (list Z)) :
  meetings !! meeting_id = None →
  virtual_meetings.join_meeting meeting_id user_id meetings =
    (Ok tt, meetings,
     [EPrint ("Error: Meeting with ID " +:+ pretty meeting_id +:+ " not found.")]) ∧
  virtual_meetings.end_meeting meeting_id meetings =
    (Ok tt, meetings,
     [EPrint ("Error: Meeting with ID " +:+ pretty meeting_id +:+ " not found.")]) ∧
  virtual_meetings.remove_user_from_meeting meeting_id user_id meetings =
    (Ok tt, meetings, []).
Proof.
  intros Hnone.
  unfold virtual_meetings.join_meeting, virtual_meetings.end_meeting,
    virtual_meetings.remove_user_from_meeting.
  run. rewrite Hnone. repeat split.
Qed.

Lemma unknown_meeting_operations_witness :
  virtual_meetings.join_meeting 42 1 ∅ =
    (Ok tt, ∅, [EPrint "Error: Meeting with ID 42 not found."]) ∧
  virtual_meetings.end_meeting 42 ∅ =
    (Ok tt, ∅, [EPrint "Error: Meeting with ID 42 not found."]) ∧
  virtual_meetings.remove_user_from_meeting 42 1 ∅ = (Ok tt, ∅, []).
Proof. exact (unknown_meeting_operations 42 1 ∅ (lookup_empty 42)). Defined.

(** ** moderation: moderate_text *)

Lemma startswith_spec (w t : string) :
  moderation.startswith w t = true ↔ ∃ post, t = w +:+ post.
Proof.
  revert t. induction w as [|a w IH]; intros t; simpl.
  - split; [intros _; exists t; reflexivity | reflexivity].
  - destruct t as [|b t].
    + split; [discriminate | intros [post Hpost]; discriminate].
    + rewrite andb_true_iff, bool_decide_eq_true, IH. split.
      * intros [-> [post ->]]. exists post. reflexivity.
      * intros [post [= -> ->]]. split; [reflexivity | exists post; reflexivity].
Qed.

Lemma str_in_spec (w t : string) :
  moderation.str_in w t = true ↔ ∃ pre post, t = pre +:+ w +:+ post.
Proof.
  induction t as [|b t IH]; simpl.
  - rewrite orb_false_r, startswith_spec. split.
    + intros [post Hpost]. exists "", post. exact Hpost.
    + intros [pre [post Heq]]. destruct pre; [exists post; exact Heq | discriminate].
  - rewrite orb_true_iff, startswith_spec, IH. split.
    + intros [[post Hpost] | [pre [post Heq]]].
      * exists "", post. exact Hpost.
      * exists (String b pre), post. simpl. rewrite Heq. reflexivity.
    + intros [pre [post Heq]]. destruct pre as [|c pre]; simpl in Heq.
      * left. exists post. exact Heq.
      * right. injection Heq as _ Heq. exists pre, post. exact Heq.
Qed.

Lemma lower_app (s t : string) :
  moderation.lower (s +:+ t) = moderation.lower s +:+ moderation.lower t.
Proof. induction s as [|c s IH]; simpl; [reflexivity | rewrite IH; reflexivity]. Qed.

(** A split of the lower case form comes from a split of the string. *)
Lemma lower_split (t a b : string) :
  moderation.lower t = a +:+ b →
  ∃ a' b', t = a' +:+ b' ∧ moderation.lower a' = a ∧ moderation.lower b' = b.
Proof.
  revert t. induction a as [|c a IH]; intros t Heq; simpl in Heq.
  - exists "", t. repeat split. exact Heq.
  - destruct t as [|d t]; [discriminate|]. simpl in Heq.
    injection Heq as Hc Heq. destruct (IH t Heq) as (a' & b' & -> & Ha & Hb).
    exists (String d a'), b'. simpl. rewrite Hc, Ha. repeat split. exact Hb.
Qed.

(** The test of the loop is the case-insensitive occurrence. *)
Lemma str_in_lower_spec (w text : string) :
  moderation.str_in (moderation.lower w) (moderation.lower text) = true ↔
  moderation.occurs_ignoring_case w text.
Proof.
  rewrite str_in_spec. unfold moderation.occurs_ignoring_case. split.
  - intros (pre & post & Heq).
    destruct (lower_split _ _ _ Heq) as (pre' & rest & -> & _ & Hrest).
    destruct (lower_split _ _ _ Hrest) as (sub & post' & -> & Hsub & _).
    exists pre', sub, post'. split; [reflexivity | exact Hsub].
  - intros (pre & sub & post & -> & Hsub).
    exists (moderation.lower pre), (moderation.lower post).
    rewrite !lower_app, Hsub. reflexivity.
Qed.

Lemma bad_words_lower (word : string) :
  word ∈ moderation.bad_words → moderation.lower word = word.
Proof.
  unfold moderation.bad_words. rewrite !elem_of_cons, elem_of_nil.
  intros [-> | [-> | [-> | []]]]; reflexivity.
Qed.

(** The loop blocks at the first word found and stops there. *)
Lemma moderate_text_loop_run (words : list string) (text : string) (sender_id : Z)
    (s : users_data.state) :
  moderation.moderate_text_loop words text sender_id s =
    if existsb (λ word, moderation.str_in word (moderation.lower text)) words
    then (Ok false,
          users_data.set_blocked_users
            (insert sender_id "Inappropriate language used.") s,
          [EBlockUser sender_id "Inappropriate language used."])
    else (Ok true, s, []).
Proof.
  induction words as [|word words IH]; simpl; [reflexivity|].
  destruct (moderation.str_in word (moderation.lower text)); simpl.
  - reflexivity.
  - exact IH.
Qed.

(** C6. When some blocklisted word occurs in [text], case ignored,
    [moderate_text] returns [False] and its trace is one call of
    [block_user] on the sender, which is then in [blocked_users]; when
    none occurs it returns [True], calls nothing and leaves the state as
    it was.  The recipient plays no part. *)
Theorem moderate_text_spec (text : string) (sender_id recipient_id : Z)
    (s : users_data.state) :
  ((∃ word, word ∈ moderation.bad_words ∧ moderation.occurs_ignoring_case word text) →
   moderation.moderate_text text sender_id recipient_id s =
     (Ok false,
      users_data.State (users_data.user_data s) (users_data.users_consent s)
        (<[sender_id := "Inappropriate language used."]> (users_data.blocked_users s)),
      [EBlockUser sender_id "Inappropriate language used."])) ∧
  ((∀ word, word ∈ moderation.bad_words → ¬ moderation.occurs_ignoring_case word text) →
   moderation.moderate_text text sender_id recipient_id s = (Ok true, s, [])).
Proof.
  unfold moderation.moderate_text. rewrite moderate_text_loop_run.
  destruct (existsb _ _) eqn:Hex.
  - split; [reflexivity|].
    intros Hnone. apply existsb_exists in Hex as (word & Hin & Hword).
    apply list_elem_of_In in Hin. exfalso. apply (Hnone word Hin).
    apply str_in_lower_spec. rewrite (bad_words_lower word Hin). exact Hword.
  - split; [|reflexivity].
    intros (word & Hin & Hocc). apply str_in_lower_spec in Hocc.
    rewrite (bad_words_lower word Hin) in Hocc.
    assert (existsb (λ word, moderation.str_in word (moderation.lower text))
              moderation.bad_words = true) as Htrue.
    { apply existsb_exists. exists word. split; [|exact Hocc].
      apply list_elem_of_In. exact Hin. }
    rewrite Htrue in Hex. discriminate.
Qed.

Lemma moderate_text_spec_witness :
  moderation.moderate_text "You BadWord2!" 5 6 (users_data.State ∅ ∅ ∅) =
    (Ok false, users_data.State ∅ ∅ (<[5 := "Inappropriate language used."]> ∅),
     [EBlockUser 5 "Inappropriate language used."]) ∧
  moderation.moderate_text "Hello" 5 6 (users_data.State ∅ ∅ ∅) =
    (Ok true, users_data.State ∅ ∅ ∅, []).
Proof.
  split.
  - apply (proj1 (moderate_text_spec "You BadWord2!" 5 6 (users_data.State ∅ ∅ ∅))).
    exists "badword2". split.
    + unfold moderation.bad_words. apply elem_of_cons. right. apply elem_of_cons. left.
      reflexivity.
    + exists "You ", "BadWord2", "!". split; reflexivity.
  - apply (proj2 (moderate_text_spec "Hello" 5 6 (users_data.State ∅ ∅ ∅))).
    intros word Hin Hocc. apply str_in_lower_spec in Hocc.
    rewrite (bad_words_lower word Hin) in Hocc.
    unfold moderation.bad_words in Hin.
    rewrite !elem_of_cons, elem_of_nil in Hin.
    destruct Hin as [-> | [-> | [-> | []]]]; vm_compute in Hocc; discriminate.
Defined.

(** ** geolocation_meetings: the nearby-users finder *)

(** The loop, from any list built so far: when it returns, every distance
    it needed was computed and the users that passed the test were
    appended in order; when it raises, the error is the one of the first
    user, with an identifier other than the target's, whose distance
    raises. *)
Lemma find_users_loop_spec `{FloatOps F} (target_user : geolocation_meetings.User F)
    (users : list (geolocation_meetings.User F)) (radius : F)
    (acc : list (geolocation_meetings.User F)) :
  match geolocation_meetings.find_users_loop target_user users radius acc with
  | Ok found =>
      (∀ user, user ∈ users →
         geolocation_meetings.user_id user ≠ geolocation_meetings.user_id target_user →
         ∃ distance, geolocation_meetings.calculate_distance target_user user = Ok distance) ∧
      found = acc ++ filter (λ user,
                geolocation_meetings.user_id user ≠ geolocation_meetings.user_id target_user ∧
                geolocation_meetings.within_radius target_user radius user = true) users
  | Raise e =>
      ∃ earlier user later,
        users = earlier ++ user :: later ∧
        geolocation_meetings.user_id user ≠ geolocation_meetings.user_id target_user ∧
        geolocation_meetings.calculate_distance target_user user = Raise e ∧
        ∀ v, v ∈ earlier →
          geolocation_meetings.user_id v ≠ geolocation_meetings.user_id target_user →
          ∃ distance, geolocation_meetings.calculate_distance target_user v = Ok distance
  end.
Proof.
  revert acc. induction users as [|user users IH]; intros acc.
  - simpl. split.
    + intros user Hin. exfalso. exact (not_elem_of_nil _ Hin).
    + rewrite filter_nil, app_nil_r. reflexivity.
  - cbn [geolocation_meetings.find_users_loop].
    destruct (decide (geolocation_meetings.user_id user
                      ≠ geolocation_meetings.user_id target_user)) as [Hid|Hid].
    + rewrite bool_decide_eq_true_2 by exact Hid.
      unfold mbind, result_bind, py.rbind.
      destruct (geolocation_meetings.calculate_distance target_user user)
        as [distance|e] eqn:Hdistance.
      * assert (geolocation_meetings.within_radius target_user radius user = f_le distance radius)
          as Hwithin by (unfold geolocation_meetings.within_radius; rewrite Hdistance; reflexivity).
        destruct (f_le distance radius) eqn:Hle.
        -- specialize (IH (acc ++ [user])).
           destruct (geolocation_meetings.find_users_loop target_user users radius (acc ++ [user]))
             as [found|e].
           ++ destruct IH as [Hall ->]. split.
              ** intros v Hv Hvid. apply elem_of_cons in Hv as [->|Hv]; [eauto | apply Hall; assumption].
              ** rewrite filter_cons_True by (split; [exact Hid | exact Hwithin]).
                 rewrite <- app_assoc. reflexivity.
           ++ destruct IH as (earlier & u & later & -> & Huid & Hraise & Hearlier).
              exists (user :: earlier), u, later. repeat split; try assumption.
              intros v Hv Hvid. apply elem_of_cons in Hv as [->|Hv]; [eauto | apply Hearlier; assumption].
        -- specialize (IH acc).
           destruct (geolocation_meetings.find_users_loop target_user users radius acc)
             as [found|e].
           ++ destruct IH as [Hall ->]. split.
              ** intros v Hv Hvid. apply elem_of_cons in Hv as [->|Hv]; [eauto | apply Hall; assumption].
              ** rewrite filter_cons_False; [reflexivity|].
                 intros [_ Htrue]. rewrite Hwithin in Htrue. discriminate.
           ++ destruct IH as (earlier & u & later & -> & Huid & Hraise & Hearlier).
              exists (user :: earlier), u, later. repeat split; try assumption.
              intros v Hv Hvid. apply elem_of_cons in Hv as [->|Hv]; [eauto | apply Hearlier; assumption].
      * exists [], user, users. repeat split; try assumption.
        intros v Hv. exfalso. exact (not_elem_of_nil _ Hv).
    + rewrite bool_decide_eq_false_2 by exact Hid.
      specialize (IH acc).
      destruct (geolocation_meetings.find_users_loop target_user users radius acc)
        as [found|e].
      * destruct IH as [Hall ->]. split.
        -- intros v Hv Hvid. apply elem_of_cons in Hv as [->|Hv]; [contradiction | apply Hall; assumption].
        -- rewrite filter_cons_False; [reflexivity|]. intros [Hne _]. contradiction.
      * destruct IH as (earlier & u & later & -> & Huid & Hraise & Hearlier).
        exists (user :: earlier), u, later. repeat split; try assumption.
        intros v Hv Hvid. apply elem_of_cons in Hv as [->|Hv]; [contradiction | apply Hearlier; assumption].
Qed.

(** C5, what the code does.  When [find_users_within_radius] returns, it
    returns the candidates whose identifier is not the target's and whose
    distance to the target is at most [radius], in the order of the
    candidate list.  It does not return for every input: it raises the
    error of [calculate_distance] for the first candidate, with another
    identifier, on which [calculate_distance] raises. *)
Theorem find_users_within_radius_spec `{FloatOps F}
    (target_user : geolocation_meetings.User F)
    (users : list (geolocation_meetings.User F)) (radius : F) :
  match geolocation_meetings.find_users_within_radius target_user users radius with
  | Ok found =>
      (∀ user, user ∈ users →
         geolocation_meetings.user_id user ≠ geolocation_meetings.user_id target_user →
         ∃ distance, geolocation_meetings.calculate_distance target_user user = Ok distance) ∧
      found = filter (λ user,
                geolocation_meetings.user_id user ≠ geolocation_meetings.user_id target_user ∧
                geolocation_meetings.within_radius target_user radius user = true) users
  | Raise e =>
      ∃ earlier user later,
        users = earlier ++ user :: later ∧
        geolocation_meetings.user_id user ≠ geolocation_meetings.user_id target_user ∧
        geolocation_meetings.calculate_distance target_user user = Raise e ∧
        ∀ v, v ∈ earlier →
          geolocation_meetings.user_id v ≠ geolocation_meetings.user_id target_user →
          ∃ distance, geolocation_meetings.calculate_distance target_user v = Ok distance
  end.
Proof.
  unfold geolocation_meetings.find_users_within_radius.
  exact (find_users_loop_spec target_user users radius []).
Qed.

(** In exact arithmetic the distance between two users at the same place
    is 0. *)
Lemma exact_distance_same_place (id1 id2 : Z) (name1 name2 : string) (lat lon : R) :
  geolocation_meetings.calculate_distance (H := exact.float)
    (geolocation_meetings.mkUser id1 name1 lat lon)
    (geolocation_meetings.mkUser id2 name2 lat lon) = Ok 0%R.
Proof.
  unfold geolocation_meetings.calculate_distance. simpl.
  replace ((lat * (PI / 180) - lat * (PI / 180)) / 2)%R with 0%R by lra.
  replace ((lon * (PI / 180) - lon * (PI / 180)) / 2)%R with 0%R by lra.
  rewrite sin_0.
  replace (0 * 0 + cos (lat * (PI / 180)) * cos (lat * (PI / 180)) * (0 * 0))%R
    with 0%R by ring.
  unfold exact.sqrt.
  destruct (Rlt_dec 0 0) as [Habs|_]; [lra|]. simpl.
  destruct (Rlt_dec (1 - 0) 0) as [Habs|_]; [lra|]. simpl.
  rewrite sqrt_0, Rminus_0_r, sqrt_1. unfold exact.atan2.
  destruct (Rlt_dec 0 1) as [_|Hno]; [|lra].
  replace (0 / 1)%R with 0%R by lra. rewrite atan_0.
  f_equal. ring.
Qed.

(** In exact arithmetic: the target is skipped, a user at the same place
    is found. *)
Example find_users_same_place :
  geolocation_meetings.find_users_within_radius (H := exact.float)
    (geolocation_meetings.mkUser 1 "Ann" 48%R 2%R)
    [geolocation_meetings.mkUser 1 "Ann" 48%R 2%R;
     geolocation_meetings.mkUser 2 "Bob" 48%R 2%R] 5%R =
  Ok [geolocation_meetings.mkUser 2 "Bob" 48%R 2%R].
Proof.
  unfold geolocation_meetings.find_users_within_radius. simpl.
  rewrite exact_distance_same_place. simpl.
  rewrite bool_decide_eq_true_2 by lra. reflexivity.
Qed.

(** ** Interest similarity *)

Lemma Qdiv_same_nat (n : nat) :
  n ≠ 0%nat → (inject_Z (Z.of_nat n) / inject_Z (Z.of_nat n) == 1)%Q.
Proof.
  intros Hn. apply Qmult_inv_r.
  unfold Qeq. simpl. lia.
Qed.

Lemma compare_interests_sym (A B : list string) :
  geolocation_meetings.compare_interests A B = geolocation_meetings.compare_interests B A.
Proof.
  unfold geolocation_meetings.compare_interests.
  assert (list_to_set A ∩ list_to_set B =@{gset string} list_to_set B ∩ list_to_set A)
    as -> by apply intersection_comm_L.
  assert (list_to_set A ∪ list_to_set B =@{gset string} list_to_set B ∪ list_to_set A)
    as -> by apply union_comm_L.
  reflexivity.
Qed.

Lemma compare_interests_same (A : list string) :
  list_to_set A ≠@{gset string} ∅ →
  (geolocation_meetings.compare_interests A A == 1)%Q.
Proof.
  intros Hne. unfold geolocation_meetings.compare_interests.
  assert (list_to_set A ∩ list_to_set A =@{gset string} list_to_set A) as ->
    by apply intersection_idemp_L.
  assert (list_to_set A ∪ list_to_set A =@{gset string} list_to_set A) as ->
    by apply union_idemp_L.
  rewrite bool_decide_eq_false_2 by exact Hne.
  apply Qdiv_same_nat. intros Hsize. apply Hne.
  apply size_empty_iff in Hsize. apply leibniz_equiv. exact Hsize.
Qed.

(** C4, as the code has it.  For lists [A] and [B] read as sets,
    [compare_interests] is [|A ∩ B| / |A ∪ B|] when the union is not
    empty and 0.5 when both sets are empty; it is 1 on [(A, A)] for a
    non-empty [A], and symmetric.  The interest similarity of
    [get_speed_dating_compatibility] is the same quotient on a non-empty
    union, but 0, not 0.5, when both sets are empty. *)
Theorem interest_similarity_spec (A B : list string) :
  let a : gset string := list_to_set A in
  let b : gset string := list_to_set B in
  (a ∪ b ≠ ∅ →
   geolocation_meetings.compare_interests A B =
     (inject_Z (Z.of_nat (size (a ∩ b))) / inject_Z (Z.of_nat (size (a ∪ b))))%Q) ∧
  (a = ∅ → b = ∅ → geolocation_meetings.compare_interests A B = 0.5%Q) ∧
  (a ≠ ∅ → (geolocation_meetings.compare_interests A A == 1)%Q) ∧
  geolocation_meetings.compare_interests A B = geolocation_meetings.compare_interests B A ∧
  (a ∪ b ≠ ∅ →
   speed_dating.interests_compatibility A B =
     (inject_Z (Z.of_nat (size (a ∩ b))) / inject_Z (Z.of_nat (size (a ∪ b))))%Q) ∧
  (a = ∅ → b = ∅ → speed_dating.interests_compatibility A B = 0%Q).
Proof.
  simpl. repeat split.
  - intros Hne. unfold geolocation_meetings.compare_interests.
    rewrite bool_decide_eq_false_2 by exact Hne. reflexivity.
  - intros Ha Hb. unfold geolocation_meetings.compare_interests.
    rewrite Ha, Hb, union_idemp_L. reflexivity.
  - apply compare_interests_same.
  - apply compare_interests_sym.
  - intros Hne. unfold speed_dating.interests_compatibility.
    rewrite bool_decide_eq_true_2; [reflexivity|].
    destruct (size (list_to_set A ∪ list_to_set B)) eqn:Hsize; [|lia].
    exfalso. apply Hne. apply size_empty_iff in Hsize.
    apply leibniz_equiv. exact Hsize.
  - intros Ha Hb. unfold speed_dating.interests_compatibility.
    rewrite Ha, Hb, union_idemp_L. reflexivity.
Qed.

Lemma interest_similarity_spec_witness :
  geolocation_meetings.compare_interests ["music"; "hiking"] ["music"] =
    (inject_Z 1 / inject_Z 2)%Q ∧
  geolocation_meetings.compare_interests [] [] = 0.5%Q ∧
  (geolocation_meetings.compare_interests ["music"; "hiking"] ["music"; "hiking"] == 1)%Q ∧
  speed_dating.interests_compatibility ["music"; "hiking"] ["music"] =
    (inject_Z 1 / inject_Z 2)%Q ∧
  speed_dating.interests_compatibility [] [] = 0%Q.
Proof.
  assert (list_to_set ["music"; "hiking"] ≠@{gset string} ∅) as Hne.
  { intros Hempty. assert ("music" ∈@{gset string} ∅) as Hin.
    { rewrite <- Hempty. apply elem_of_list_to_set. apply elem_of_cons. left. reflexivity. }
    exact (not_elem_of_empty _ Hin). }
  assert (list_to_set ["music"; "hiking"] ∪ list_to_set ["music"] ≠@{gset string} ∅) as Hne2.
  { intros Hempty. apply Hne. apply empty_union_L in Hempty. tauto. }
  destruct (interest_similarity_spec ["music"; "hiking"] ["music"])
    as (Hratio & _ & Hsame & _ & Hspeed & _).
  destruct (interest_similarity_spec [] []) as (_ & Hempty & _ & _ & _ & Hzero).
  exact (conj (Hratio Hne2) (conj (Hempty eq_refl eq_refl) (conj (Hsame Hne)
           (conj (Hspeed Hne2) (Hzero eq_refl eq_refl))))).
Defined.

(** C4 as stated fails: on two empty interest lists the interest
    similarity of [get_speed_dating_compatibility] is 0, while
    [compare_interests] gives 0.5. *)
Lemma speed_dating_empty_default_not_half :
  speed_dating.interests_compatibility [] [] = 0%Q ∧
  ¬ (speed_dating.interests_compatibility [] [] == 0.5)%Q ∧
  geolocation_meetings.compare_interests [] [] = 0.5%Q.
Proof.
  split; [reflexivity|]. split; [|reflexivity].
  vm_compute. discriminate.
Qed.

(** ** The compatibility composers *)

(** The weighted sum of [geolocation_meetings.get_meeting_compatibility]
    on three numbers. *)
Lemma compatibility_rate_num (p i t : Q) :
  geolocation_meetings.compatibility_rate (PyNum p) (PyNum i) (PyNum t) =
    Ok (PyNum (p * 0.3 + i * 0.4 + t * 0.3)%Q).
Proof. reflexivity. Qed.

(** The clamped mean of [virtual_meetings.get_meeting_compatibility] on
    two numbers. *)
Lemma total_compatibility_num (i t : Q) :
  virtual_meetings.total_compatibility (PyNum i) (PyNum t) =
    Ok (PyNum (let total := ((i + t) / 2)%Q in
               let lower := if Qlt_le_dec total 0 then 0%Q else total in
               if Qlt_le_dec 1 lower then 1%Q else lower)).
Proof. reflexivity. Qed.

Lemma scale_inf_2 (positive : bool) : py.scale_inf positive 2 = PyInf positive.
Proof.
  unfold py.scale_inf. destruct (Qlt_le_dec 0 2) as [_|Habs]; [reflexivity|].
  exfalso. revert Habs. apply Qlt_not_le. reflexivity.
Qed.

(** The clamp of a finite mean. *)
Lemma clamp_range (m : Q) :
  let lower := if Qlt_le_dec m 0 then 0%Q else m in
  let q := if Qlt_le_dec 1 lower then 1%Q else lower in
  (0 <= q <= 1)%Q ∧
  ((0 <= m <= 1)%Q → q = m) ∧ ((m < 0)%Q → q = 0%Q) ∧ ((1 < m)%Q → q = 1%Q).
Proof.
  simpl. destruct (Qlt_le_dec m 0) as [Hneg|Hpos].
  - destruct (Qlt_le_dec 1 0) as [Habs|_];
      [exfalso; revert Habs; apply Qle_not_lt; discriminate|].
    repeat split; try discriminate.
    + intros [Hlo _]. exfalso. exact (Qle_not_lt _ _ Hlo Hneg).
    + intros Hhi. exfalso. apply (Qlt_not_le _ _ Hhi).
      apply Qlt_le_weak. apply (Qlt_trans _ 0); [exact Hneg | reflexivity].
  - destruct (Qlt_le_dec 1 m) as [Hhi|Hle].
    + repeat split; try discriminate.
      * intros [_ Hle]. exfalso. exact (Qlt_not_le _ _ Hhi Hle).
      * intros Hneg. exfalso. exact (Qle_not_lt _ _ Hpos Hneg).
    + repeat split; try assumption.
      * intros Hneg. exfalso. exact (Qle_not_lt _ _ Hpos Hneg).
      * intros Hhi. exfalso. exact (Qlt_not_le _ _ Hhi Hle).
Qed.

(** The clamped mean of two floats, of any kind: a number between 0 and
    1, or NaN, and NaN exactly when the sum of the two is NaN. *)
Lemma total_compatibility_floats (x y : value) :
  x ≠ PyNone → y ≠ PyNone →
  ∃ v, virtual_meetings.total_compatibility x y = Ok v ∧
    (v = PyNaN ∨ ∃ q, v = PyNum q ∧ (0 <= q <= 1)%Q) ∧
    (v = PyNaN ↔ py.add x y = Ok PyNaN).
Proof.
  intros Hx Hy.
  destruct x as [|p|[|]|]; [congruence| | | |];
    (destruct y as [|q|[|]|]; [congruence| | | |]);
    unfold virtual_meetings.total_compatibility, mbind, result_bind, py.rbind;
    cbn [py.add py.div py.max py.min Bool.eqb]; rewrite ?scale_inf_2;
    cbn [py.max py.min];
    try (eexists; split; [reflexivity|]; split; [left; reflexivity | tauto]);
    try (eexists; split; [reflexivity|]; split;
         [right; eexists; split; [reflexivity | split; discriminate]
         | split; [discriminate | intros [=]]]).
  eexists. split; [reflexivity|]. split.
  - right. eexists. split; [reflexivity|]. apply (clamp_range ((p + q) / 2)).
  - split; [discriminate | intros [=]].
Qed.

(** C2, as the code has it.  On numbers, the statement that combines the
    scores in [geolocation_meetings.get_meeting_compatibility] is
    proximity × 0.3 + interests × 0.4 + traits × 0.3, with no clamp; the
    sum lies in [0, 1] when the three scores do.  The composer of
    [virtual_meetings.get_meeting_compatibility] returns
    (interests + traits) / 2 clamped to [0, 1]: a score in [0, 1] for any
    two floats whose sum is not NaN, which covers all finite scores and
    the infinities of one sign, and NaN when the sum is NaN. *)
Theorem compatibility_composers (p i t : Q) (x y : value) :
  geolocation_meetings.compatibility_rate (PyNum p) (PyNum i) (PyNum t) =
    Ok (PyNum (p * 0.3 + i * 0.4 + t * 0.3)%Q) ∧
  ((0 <= p <= 1)%Q → (0 <= i <= 1)%Q → (0 <= t <= 1)%Q →
   (0 <= p * 0.3 + i * 0.4 + t * 0.3 <= 1)%Q) ∧
  (∃ q, virtual_meetings.total_compatibility (PyNum i) (PyNum t) = Ok (PyNum q) ∧
     (0 <= q <= 1)%Q ∧
     ((0 <= (i + t) / 2 <= 1)%Q → q = ((i + t) / 2)%Q) ∧
     (((i + t) / 2 < 0)%Q → q = 0%Q) ∧
     ((1 < (i + t) / 2)%Q → q = 1%Q)) ∧
  (x ≠ PyNone → y ≠ PyNone →
   ∃ v, virtual_meetings.total_compatibility x y = Ok v ∧
     (v = PyNaN ∨ ∃ q, v = PyNum q ∧ (0 <= q <= 1)%Q) ∧
     (v = PyNaN ↔ py.add x y = Ok PyNaN)).
Proof.
  split; [apply compatibility_rate_num|]. split; [intros Hp Hi Ht; lra|]. split.
  - eexists. split; [apply total_compatibility_num|].
    apply (clamp_range ((i + t) / 2)).
  - apply total_compatibility_floats.
Qed.

Lemma compatibility_composers_witness :
  (0 <= 1 * 0.3 + 0.5 * 0.4 + 0 * 0.3 <= 1)%Q ∧
  (∃ q, virtual_meetings.total_compatibility (PyNum 1) (PyNum 2) = Ok (PyNum q) ∧ q = 1%Q) ∧
  (∃ v, virtual_meetings.total_compatibility (PyInf true) (PyNum 2) = Ok v ∧
     (v = PyNaN ∨ ∃ q, v = PyNum q ∧ (0 <= q <= 1)%Q)).
Proof.
  destruct (compatibility_composers 1 0.5 0 (PyInf true) (PyNum 2))
    as (_ & Hrange & _ & Hfloats).
  destruct (compatibility_composers 0 1 2 PyNaN PyNaN) as (_ & _ & (q & Hq & _ & _ & _ & Hhi) & _).
  split; [apply Hrange; split; discriminate|]. split.
  - exists q. split; [exact Hq | apply Hhi; reflexivity].
  - destruct Hfloats as (v & Hv & Hkind & _); [discriminate | discriminate |].
    exists v. split; assumption.
Defined.

(** C2 as stated fails on each composer.  In [virtual_meetings] the
    scores 1 and 0 give 0.5, which is not the weighted sum for either of
    the proximity scores 1 and 0.1, and a NaN score gives NaN, which is
    not in [0, 1].  In [geolocation_meetings] the trait score is what
    [compare_psychological_traits] returns, [None], and the weighted sum
    raises instead of returning a score. *)
Lemma composers_differ_from_claim :
  (∃ q, virtual_meetings.total_compatibility (PyNum 1) (PyNum 0) = Ok (PyNum q) ∧
     (q == 0.5)%Q ∧
     ¬ (q == 1 * 0.3 + 1 * 0.4 + 0 * 0.3)%Q ∧
     ¬ (q == 0.1 * 0.3 + 1 * 0.4 + 0 * 0.3)%Q) ∧
  virtual_meetings.total_compatibility PyNaN (PyNum 0) = Ok PyNaN ∧
  geolocation_meetings.compatibility_rate (PyNum 1) (PyNum 1)
    (geolocation_meetings.compare_psychological_traits [] []) = Raise TypeError.
Proof.
  split; [|split; reflexivity].
  eexists. split; [reflexivity|]. repeat split; vm_compute; discriminate.
Qed.

(** ** Missing records and missing traits *)

(** C3. When the location of one of the two users does not resolve,
    [geolocation_meetings.get_meeting_compatibility] prints one line and
    returns 0; when the record of one of the two users does not resolve,
    [virtual_meetings.get_meeting_compatibility] returns 0.  Neither
    raises. *)
Theorem missing_user_scores_zero :
  (∀ (F : Type) (ops : FloatOps F) (get_user_location : Z → option (gmap string F))
     (user1 user2 : geolocation_meetings.Profile),
     get_user_location (geolocation_meetings.profile_user_id user1) = None ∨
     get_user_location (geolocation_meetings.profile_user_id user2) = None →
     geolocation_meetings.get_meeting_compatibility get_user_location user1 user2 tt =
       (Ok (PyNum 0), tt, [EPrint "Could not retrieve user locations."])) ∧
  (∀ (get_user_data : Z → option (gmap string pyobj))
     (compare_interests : pyobj → pyobj → result value)
     (compare_psychological_traits : Z → Z → result value)
     (user_id1 user_id2 : Z),
     get_user_data user_id1 = None ∨ get_user_data user_id2 = None →
     virtual_meetings.get_meeting_compatibility get_user_data compare_interests
       compare_psychological_traits user_id1 user_id2 = Ok (PyNum 0)).
Proof.
  split.
  - intros F ops get_user_location user1 user2 Hmissing.
    unfold geolocation_meetings.get_meeting_compatibility.
    destruct Hmissing as [-> | ->]; simpl; [reflexivity|].
    rewrite orb_true_r. reflexivity.
  - intros get_user_data compare_interests compare_psychological_traits
      user_id1 user_id2 Hmissing.
    unfold virtual_meetings.get_meeting_compatibility.
    destruct Hmissing as [-> | ->]; simpl; [reflexivity|].
    rewrite orb_true_r. reflexivity.
Qed.

Lemma missing_user_scores_zero_witness :
  geolocation_meetings.get_meeting_compatibility (H := exact.float)
    (λ user_id, if bool_decide (user_id = 1) then Some {["latitude" := 0%R; "longitude" := 0%R]}
                else None)
    (geolocation_meetings.mkProfile 1 "Ann" ["music"] [])
    (geolocation_meetings.mkProfile 2 "Bob" ["music"] []) tt =
    (Ok (PyNum 0), tt, [EPrint "Could not retrieve user locations."]) ∧
  virtual_meetings.get_meeting_compatibility
    (λ user_id, if bool_decide (user_id = 1) then Some {["interests" := PList []]} else None)
    (λ _ _, Ok (PyNum 1)) (λ _ _, Ok (PyNum 1)) 1 2 = Ok (PyNum 0).
Proof.
  split.
  - apply (proj1 missing_user_scores_zero). right. reflexivity.
  - apply (proj2 missing_user_scores_zero). right. reflexivity.
Defined.

(** C1, what the code does.  When both locations resolve to records with
    a latitude and a longitude,
    [geolocation_meetings.get_meeting_compatibility] returns no score: it
    raises.  When [calculate_distance] returns, the error is the
    [TypeError] of the weighted sum, since [compare_psychological_traits]
    evaluates to [None] and the sum multiplies it by 0.3; when
    [calculate_distance] raises, the error is that one. *)
Theorem get_meeting_compatibility_raises `{FloatOps F}
    (get_user_location : Z → option (gmap string F))
    (user1 user2 : geolocation_meetings.Profile)
    (location1 location2 : gmap string F) (lat1 lon1 lat2 lon2 : F) :
  get_user_location (geolocation_meetings.profile_user_id user1) = Some location1 →
  get_user_location (geolocation_meetings.profile_user_id user2) = Some location2 →
  location1 !! "latitude" = Some lat1 → location1 !! "longitude" = Some lon1 →
  location2 !! "latitude" = Some lat2 → location2 !! "longitude" = Some lon2 →
  geolocation_meetings.get_meeting_compatibility get_user_location user1 user2 tt =
    (Raise
       match geolocation_meetings.calculate_distance
               (geolocation_meetings.mkUser (geolocation_meetings.profile_user_id user1)
                  (geolocation_meetings.profile_name user1) lat1 lon1)
               (geolocation_meetings.mkUser (geolocation_meetings.profile_user_id user2)
                  (geolocation_meetings.profile_name user2) lat2 lon2)
       with
       | Ok _ => TypeError
       | Raise e => e
       end,
     tt, []).
Proof.
  intros Hloc1 Hloc2 Hlat1 Hlon1 Hlat2 Hlon2.
  unfold geolocation_meetings.get_meeting_compatibility.
  rewrite Hloc1, Hloc2. unfold truthy.
  rewrite !bool_decide_eq_false_2.
  - run. unfold getitem. rewrite Hlat1, Hlon1, Hlat2, Hlon2. simpl.
    destruct (geolocation_meetings.calculate_distance _ _) as [distance|e]; simpl.
    + destruct (f_le distance (f_of_Z 10)); reflexivity.
    + reflexivity.
  - intros ->. rewrite lookup_empty in Hlat2. discriminate.
  - intros ->. rewrite lookup_empty in Hlat1. discriminate.
Qed.

Lemma get_meeting_compatibility_raises_witness :
  geolocation_meetings.get_meeting_compatibility (H := exact.float)
    (λ _, Some {["latitude" := 0%R; "longitude" := 0%R]})
    (geolocation_meetings.mkProfile 1 "Ann" ["music"; "hiking"] [])
    (geolocation_meetings.mkProfile 2 "Bob" ["music"; "hiking"] []) tt =
    (Raise TypeError, tt, []).
Proof.
  pose proof (get_meeting_compatibility_raises (H := exact.float)
                (λ _, Some {["latitude" := 0%R; "longitude" := 0%R]})
                (geolocation_meetings.mkProfile 1 "Ann" ["music"; "hiking"] [])
                (geolocation_meetings.mkProfile 2 "Bob" ["music"; "hiking"] [])
                {["latitude" := 0%R; "longitude" := 0%R]}
                {["latitude" := 0%R; "longitude" := 0%R]} 0%R 0%R 0%R 0%R
                eq_refl eq_refl eq_refl eq_refl eq_refl eq_refl) as Hrun.
  simpl geolocation_meetings.profile_user_id in Hrun.
  simpl geolocation_meetings.profile_name in Hrun.
  rewrite exact_distance_same_place in Hrun. exact Hrun.
Defined.

(** * Further properties *)

(** ** users_data: blocking *)

(** X1. Blocking a user that was not blocked and unblocking it again gives
    back the state; in between the user is reported blocked. *)
Theorem block_unblock_round_trip (user_id : Z) (reason : string) (s : users_data.state) :
  users_data.blocked_users s !! user_id = None →
  (users_data.block_user user_id reason;;
   blocked ← users_data.is_user_blocked user_id;
   users_data.unblock_user user_id;;
   py.ret blocked) s = (Ok true, s, [EBlockUser user_id reason]).
Proof.
  intros Hfree. destruct s as [ud uc bu]. simpl in Hfree.
  unfold users_data.block_user, users_data.is_user_blocked, users_data.unblock_user,
    users_data.is_user_blocked.
  run. unfold users_data.set_blocked_users. simpl.
  rewrite lookup_insert_eq.
  rewrite bool_decide_eq_true_2 by eauto. simpl.
  rewrite delete_insert_eq, delete_id by exact Hfree. reflexivity.
Qed.

Lemma block_unblock_round_trip_witness :
  (users_data.block_user 5 "spam";;
   blocked ← users_data.is_user_blocked 5;
   users_data.unblock_user 5;;
   py.ret blocked) (users_data.State ∅ ∅ ∅) =
  (Ok true, users_data.State ∅ ∅ ∅, [EBlockUser 5 "spam"]).
Proof. exact (block_unblock_round_trip 5 "spam" (users_data.State ∅ ∅ ∅) (lookup_empty 5)). Defined.

(** X2. [unblock_user] on a blocked user removes the entry and prints
    nothing; a second [unblock_user] then finds the user not blocked,
    prints its error line and changes nothing more. *)
Theorem unblock_user_twice (user_id : Z) (reason : string) (s : users_data.state) :
  users_data.blocked_users s !! user_id = Some reason →
  (users_data.unblock_user user_id;; users_data.unblock_user user_id) s =
    (Ok tt,
     users_data.State (users_data.user_data s) (users_data.users_consent s)
       (delete user_id (users_data.blocked_users s)),
     [EPrint ("Error: User " +:+ pretty user_id +:+ " is not currently blocked.")]).
Proof.
  intros Hblocked. destruct s as [ud uc bu]. simpl in Hblocked.
  unfold users_data.unblock_user, users_data.is_user_blocked.
  run. rewrite Hblocked.
  rewrite bool_decide_eq_true_2 by eauto. simpl.
  rewrite lookup_delete_eq.
  rewrite bool_decide_eq_false_2 by (intros [x Hx]; discriminate). reflexivity.
Qed.

Lemma unblock_user_twice_witness :
  (users_data.unblock_user 5;; users_data.unblock_user 5)
    (users_data.State ∅ ∅ {[5 := "spam"]}) =
  (Ok tt, users_data.State ∅ ∅ (delete 5 {[5 := "spam"]}),
   [EPrint "Error: User 5 is not currently blocked."]).
Proof.
  exact (unblock_user_twice 5 "spam" (users_data.State ∅ ∅ {[5 := "spam"]})
           (lookup_singleton_eq 5 "spam")).
Defined.

(** ** users_data: consent and the per-user fields *)

(** X3. Asking for the consent of a user that no dictionary knows answers
    [False], records that answer and stores the default record for the
    user; [create_user] for the same identifier is then refused, and the
    record of the user stays the default one, with no ["interests"]. *)
Theorem consent_lookup_registers_user (user_id : Z) (user_info : gmap string pyobj)
    (s : users_data.state) :
  users_data.users_consent s !! user_id = None →
  users_data.user_data s !! user_id = None →
  (consent ← users_data.get_user_geolocation_consent user_id;
   users_data.create_user user_id user_info;;
   record ← users_data.get_user user_id;
   py.ret (consent, record)) s =
  (Ok (false, Some users_data.default_record),
   users_data.State
     (<[user_id := users_data.default_record]> (users_data.user_data s))
     (<[user_id := false]> (users_data.users_consent s))
     (users_data.blocked_users s),
   [EPrint ("Error: User with ID " +:+ pretty user_id +:+ " already exists.")]) ∧
  users_data.default_record !! "interests" = None.
Proof.
  intros Hconsent Hdata. split; [|reflexivity].
  destruct s as [ud uc bu]. simpl in *.
  unfold users_data.get_user_geolocation_consent, users_data.ensure_record,
    users_data.create_user, users_data.get_user.
  run. rewrite Hconsent. simpl. rewrite Hdata. simpl.
  unfold users_data.getitem_id. rewrite lookup_insert_eq. simpl.
  rewrite lookup_insert_eq. simpl. rewrite lookup_insert_eq. reflexivity.
Qed.

Lemma consent_lookup_registers_user_witness :
  (consent ← users_data.get_user_geolocation_consent 1;
   users_data.create_user 1 {["name" := PStr "Ann"]};;
   record ← users_data.get_user 1;
   py.ret (consent, record)) (users_data.State ∅ ∅ ∅) =
  (Ok (false, Some users_data.default_record),
   users_data.State (<[1 := users_data.default_record]> ∅) (<[1 := false]> ∅) ∅,
   [EPrint "Error: User with ID 1 already exists."]).
Proof.
  exact (proj1 (consent_lookup_registers_user 1 {["name" := PStr "Ann"]}
                  (users_data.State ∅ ∅ ∅) (lookup_empty 1) (lookup_empty 1))).
Defined.

(** X4. Setting the consent and reading it back gives the value set.  Unlike
    the reader alone, the pair never touches [user_data], also for a user
    that it does not know. *)
Theorem consent_set_get (user_id : Z) (consent : bool) (s : users_data.state) :
  (users_data.set_user_geolocation_consent user_id consent;;
   users_data.get_user_geolocation_consent user_id) s =
  (Ok consent,
   users_data.State (users_data.user_data s)
     (<[user_id := consent]> (users_data.users_consent s)) (users_data.blocked_users s),
   []).
Proof.
  destruct s as [ud uc bu].
  unfold users_data.set_user_geolocation_consent, users_data.get_user_geolocation_consent.
  run. rewrite lookup_insert_eq. simpl.
  unfold users_data.getitem_id. rewrite lookup_insert_eq. reflexivity.
Qed.

(** [ensure_record] leaves a record for the user: the one there was, or
    the default one. *)
Lemma ensure_record_run (user_id : Z) (s : users_data.state) :
  users_data.ensure_record user_id s =
    (Ok tt,
     users_data.State
       (<[user_id := default users_data.default_record (users_data.user_data s !! user_id)]>
          (users_data.user_data s))
       (users_data.users_consent s) (users_data.blocked_users s),
     []).
Proof.
  destruct s as [ud uc bu]. unfold users_data.ensure_record. run.
  destruct (ud !! user_id) as [record|] eqn:Hrecord; simpl.
  - rewrite insert_id by exact Hrecord. reflexivity.
  - reflexivity.
Qed.

(** A setter: the field is written in the record [ensure_record] left. *)
Lemma write_after_ensure (user_id : Z) (key : string) (v : pyobj) (s : users_data.state) :
  (users_data.ensure_record user_id;; users_data.write_field user_id key v) s =
    (Ok tt,
     users_data.State
       (<[user_id := <[key := v]>
            (default users_data.default_record (users_data.user_data s !! user_id))]>
          (users_data.user_data s))
       (users_data.users_consent s) (users_data.blocked_users s),
     []).
Proof.
  unfold mbind at 1. unfold M_bind, py.bind. rewrite ensure_record_run.
  unfold users_data.write_field. run. unfold users_data.getitem_id.
  rewrite lookup_insert_eq. simpl. unfold users_data.set_user_data. simpl.
  rewrite insert_insert_eq. reflexivity.
Qed.

(** A getter: the field is read in the record [ensure_record] left. *)
Lemma read_after_ensure (user_id : Z) (key : string) (s : users_data.state) :
  (users_data.ensure_record user_id;; users_data.read_field user_id key) s =
    (getitem (default users_data.default_record (users_data.user_data s !! user_id)) key,
     users_data.State
       (<[user_id := default users_data.default_record (users_data.user_data s !! user_id)]>
          (users_data.user_data s))
       (users_data.users_consent s) (users_data.blocked_users s),
     []).
Proof.
  unfold mbind at 1. unfold M_bind, py.bind. rewrite ensure_record_run.
  unfold users_data.read_field. run. unfold users_data.getitem_id.
  rewrite lookup_insert_eq. simpl.
  destruct (getitem _ key); reflexivity.
Qed.

(** A setter followed by a getter, on any two users and fields. *)
Lemma read_after_write (user_id other : Z) (key field : string) (v : pyobj)
    (s : users_data.state) :
  ((users_data.ensure_record user_id;; users_data.write_field user_id key v);;
   (users_data.ensure_record other;; users_data.read_field other field)) s =
  (getitem
     (default users_data.default_record
        (<[user_id := <[key := v]>
             (default users_data.default_record (users_data.user_data s !! user_id))]>
           (users_data.user_data s) !! other)) field,
   users_data.State
     (<[other := default users_data.default_record
          (<[user_id := <[key := v]>
               (default users_data.default_record (users_data.user_data s !! user_id))]>
             (users_data.user_data s) !! other)]>
        (<[user_id := <[key := v]>
             (default users_data.default_record (users_data.user_data s !! user_id))]>
           (users_data.user_data s)))
     (users_data.users_consent s) (users_data.blocked_users s),
   []).
Proof.
  unfold mbind at 1. unfold M_bind at 1. unfold py.bind at 1.
  rewrite write_after_ensure, read_after_ensure. simpl.
  destruct (getitem _ field); reflexivity.
Qed.

(** X5. Each setter followed by its getter returns the value set, for every
    state: the user may be unknown, or have a record without the field. *)
Theorem preferences_round_trip (user_id : Z) (v : pyobj) (s : users_data.state) :
  fst (fst ((users_data.set_user_game_preferences user_id v;;
             users_data.get_user_game_preferences user_id) s)) = Ok v ∧
  fst (fst ((users_data.set_user_speed_dating_schedule user_id v;;
             users_data.get_user_speed_dating_schedule user_id) s)) = Ok v ∧
  fst (fst ((users_data.set_user_blind_matching_schedule user_id v;;
             users_data.get_user_blind_matching_schedule user_id) s)) = Ok v.
Proof.
  unfold users_data.set_user_game_preferences, users_data.get_user_game_preferences,
    users_data.set_user_speed_dating_schedule, users_data.get_user_speed_dating_schedule,
    users_data.set_user_blind_matching_schedule, users_data.get_user_blind_matching_schedule.
  rewrite !read_after_write. simpl. rewrite !lookup_insert_eq. simpl.
  unfold getitem. rewrite !lookup_insert_eq. repeat split.
Qed.

(** X6. A setter does not change what the getter of another field of the
    same user answers, for each of the three setters and the two other
    getters. *)
Theorem setters_are_independent (user_id : Z) (v : pyobj) (s : users_data.state) :
  fst (fst ((users_data.set_user_speed_dating_schedule user_id v;;
             users_data.get_user_game_preferences user_id) s)) =
    fst (fst (users_data.get_user_game_preferences user_id s)) ∧
  fst (fst ((users_data.set_user_blind_matching_schedule user_id v;;
             users_data.get_user_game_preferences user_id) s)) =
    fst (fst (users_data.get_user_game_preferences user_id s)) ∧
  fst (fst ((users_data.set_user_game_preferences user_id v;;
             users_data.get_user_speed_dating_schedule user_id) s)) =
    fst (fst (users_data.get_user_speed_dating_schedule user_id s)) ∧
  fst (fst ((users_data.set_user_blind_matching_schedule user_id v;;
             users_data.get_user_speed_dating_schedule user_id) s)) =
    fst (fst (users_data.get_user_speed_dating_schedule user_id s)) ∧
  fst (fst ((users_data.set_user_game_preferences user_id v;;
             users_data.get_user_blind_matching_schedule user_id) s)) =
    fst (fst (users_data.get_user_blind_matching_schedule user_id s)) ∧
  fst (fst ((users_data.set_user_speed_dating_schedule user_id v;;
             users_data.get_user_blind_matching_schedule user_id) s)) =
    fst (fst (users_data.get_user_blind_matching_schedule user_id s)).
Proof.
  unfold users_data.set_user_game_preferences, users_data.get_user_game_preferences,
    users_data.set_user_speed_dating_schedule, users_data.get_user_speed_dating_schedule,
    users_data.set_user_blind_matching_schedule, users_data.get_user_blind_matching_schedule.
  rewrite !read_after_write, !read_after_ensure. simpl.
  rewrite !lookup_insert_eq. simpl. unfold getitem.
  rewrite !lookup_insert_ne by discriminate.
  repeat split.
Qed.

(** X7. [create_user] does not give the record the fields of the default
    record: when [user_info] has no ["games_preferences"], reading the
    game preferences of the user just created raises [KeyError]. *)
Theorem preferences_of_created_user (user_id : Z) (user_info : gmap string pyobj)
    (s : users_data.state) :
  users_data.user_data s !! user_id = None →
  user_info !! "games_preferences" = None →
  fst (fst ((users_data.create_user user_id user_info;;
             users_data.get_user_game_preferences user_id) s)) =
    Raise (KeyError "games_preferences").
Proof.
  intros Hfree Hfield.
  unfold mbind at 1. unfold M_bind, py.bind.
  rewrite create_user_fresh by exact Hfree.
  unfold users_data.get_user_game_preferences. rewrite read_after_ensure. simpl.
  rewrite lookup_insert_eq. simpl. unfold getitem.
  rewrite lookup_insert_ne by discriminate. rewrite Hfield. reflexivity.
Qed.

Lemma preferences_of_created_user_witness :
  fst (fst ((users_data.create_user 1 {["name" := PStr "Ann"]};;
             users_data.get_user_game_preferences 1) (users_data.State ∅ ∅ ∅))) =
    Raise (KeyError "games_preferences").
Proof.
  apply preferences_of_created_user; reflexivity.
Defined.

(** ** geolocation_meetings: save_user_geolocation *)

(** The consent reader: the recorded answer, or [False] for a user
    without one, who then gets that answer recorded and a record. *)
Lemma get_user_geolocation_consent_run (user_id : Z) (s : users_data.state) :
  users_data.get_user_geolocation_consent user_id s =
    match users_data.users_consent s !! user_id with
    | Some consent => (Ok consent, s, [])
    | None =>
        (Ok false,
         users_data.State
           (<[user_id := default users_data.default_record
                (users_data.user_data s !! user_id)]> (users_data.user_data s))
           (<[user_id := false]> (users_data.users_consent s))
           (users_data.blocked_users s),
         [])
    end.
Proof.
  destruct s as [ud uc bu]. simpl.
  unfold users_data.get_user_geolocation_consent, users_data.ensure_record. run.
  destruct (uc !! user_id) as [consent|] eqn:Hconsent; simpl.
  - unfold users_data.getitem_id. rewrite Hconsent. reflexivity.
  - unfold users_data.getitem_id.
    destruct (ud !! user_id) as [record|] eqn:Hrecord; simpl;
      rewrite lookup_insert_eq; simpl; [|reflexivity].
    rewrite insert_id by exact Hrecord. reflexivity.
Qed.

(** X8. [save_user_geolocation] answers [True] exactly when the consent was
    already recorded as given or the user answers yes, in any case of
    letters; the consent recorded afterwards is its answer.  It never
    blocks anybody, changes the consent of no other user, and stores the
    coordinates nowhere: [user_data] is as before, up to the default
    record of a user that had none. *)
Theorem save_user_geolocation_spec {F : Type} (float_repr : F → string) (response : string)
    (user_id : Z) (latitude longitude : F) (s : users_data.state) :
  let granted :=
    bool_decide (users_data.users_consent s !! user_id = Some true)
    || bool_decide (moderation.lower response = "yes") in
  ∃ s' trace,
    geolocation_meetings.save_user_geolocation float_repr response user_id
      latitude longitude s = (Ok granted, s', trace) ∧
    users_data.users_consent s' !! user_id = Some granted ∧
    (∀ other, other ≠ user_id →
       users_data.users_consent s' !! other = users_data.users_consent s !! other) ∧
    users_data.blocked_users s' = users_data.blocked_users s ∧
    (users_data.user_data s' = users_data.user_data s ∨
     users_data.user_data s !! user_id = None ∧
     users_data.user_data s' =
       <[user_id := users_data.default_record]> (users_data.user_data s)).
Proof.
  simpl. unfold geolocation_meetings.save_user_geolocation.
  unfold mbind at 1. unfold M_bind at 1. unfold py.bind at 1.
  rewrite get_user_geolocation_consent_run.
  destruct s as [ud uc bu]. simpl.
  unfold users_data_io.request_user_geolocation_consent,
    users_data.set_user_geolocation_consent.
  destruct (uc !! user_id) as [[|]|] eqn:Hconsent; simpl.
  - run. do 2 eexists. split; [reflexivity|]. simpl. repeat split; auto.
  - run. destruct (bool_decide (moderation.lower response = "yes")); simpl;
      do 2 eexists; (split; [reflexivity|]); simpl;
      rewrite lookup_insert_eq; repeat split; auto;
      intros other Hother; apply lookup_insert_ne; congruence.
  - run. destruct (bool_decide (moderation.lower response = "yes")); simpl;
      do 2 eexists; (split; [reflexivity|]); simpl;
      rewrite insert_insert_eq, lookup_insert_eq;
      (split; [reflexivity|]);
      (split; [intros other Hother; rewrite lookup_insert_ne by congruence;
               reflexivity|]);
      (split; [reflexivity|]);
      (destruct (ud !! user_id) as [record|] eqn:Hrecord; simpl;
       [left; apply insert_id; exact Hrecord | right; split; reflexivity]).
Qed.

(** ** moderation: the flag counters and the word list *)

(** [n] calls of [flag_user] in a row, from a counter at
    [default 0 (user_flags !! user_id)]. *)
Lemma flag_user_times_run (n : nat) (user_id : Z) (user_flags : gmap Z Z) :
  moderation.flag_user_times n user_id user_flags =
    (Ok (map (λ k, bool_decide (3 ≤ default 0 (user_flags !! user_id) + Z.of_nat k)%Z)
           (seq 1 n)),
     match n with
     | O => user_flags
     | S _ => <[user_id := default 0 (user_flags !! user_id) + Z.of_nat n]> user_flags
     end,
     []).
Proof.
  revert user_flags. induction n as [|n IH]; intros user_flags; [reflexivity|].
  simpl moderation.flag_user_times.
  unfold mbind at 1. unfold M_bind at 1. unfold py.bind at 1.
  rewrite flag_user_run.
  unfold mbind at 1. unfold M_bind at 1. unfold py.bind at 1.
  rewrite IH. rewrite lookup_insert_eq. simpl default.
  unfold mret, M_ret, py.ret. cbn [app].
  assert (map (λ k, bool_decide (3 ≤ default 0 (user_flags !! user_id) + 1 + Z.of_nat k)%Z)
            (seq 1 n) =
          map (λ k, bool_decide (3 ≤ default 0 (user_flags !! user_id) + Z.of_nat k)%Z)
            (seq 2 n)) as ->.
  { rewrite <- (seq_shift n 1), map_map.
    apply map_ext. intros k. apply bool_decide_ext. lia. }
  assert (match n with
          | O => <[user_id := default 0 (user_flags !! user_id) + 1]> user_flags
          | S _ => <[user_id := default 0 (user_flags !! user_id) + 1 + Z.of_nat n]>
                     (<[user_id := default 0 (user_flags !! user_id) + 1]> user_flags)
          end =
          <[user_id := default 0 (user_flags !! user_id) + Z.of_nat (S n)]> user_flags) as ->.
  { destruct n as [|n]; [reflexivity|].
    rewrite insert_insert_eq. f_equal. lia. }
  reflexivity.
Qed.

(** X9. Of [n] calls of [flag_user] for a user without flags, the first two
    answer [False] and all later ones [True]; the counter then stands at
    [n]. *)
Theorem flag_user_from_third_call (n : nat) (user_id : Z) (user_flags : gmap Z Z) :
  user_flags !! user_id = None →
  moderation.flag_user_times n user_id user_flags =
    (Ok (map (λ k, bool_decide (3 ≤ k)%nat) (seq 1 n)),
     match n with
     | O => user_flags
     | S _ => <[user_id := Z.of_nat n]> user_flags
     end,
     []).
Proof.
  intros Hnone. rewrite flag_user_times_run, Hnone. simpl default.
  assert (map (λ k, bool_decide (3 ≤ 0 + Z.of_nat k)%Z) (seq 1 n) =
          map (λ k, bool_decide (3 ≤ k)%nat) (seq 1 n)) as ->.
  { apply map_ext. intros k. apply bool_decide_ext. lia. }
  destruct n; reflexivity.
Qed.

Lemma flag_user_from_third_call_witness :
  moderation.flag_user_times 5 7 ∅ =
    (Ok [false; false; true; true; true], <[7 := 5]> ∅, []).
Proof. exact (flag_user_from_third_call 5 7 ∅ (lookup_empty 7)). Defined.

(** The members of the list of dangerous users. *)
Lemma get_dangerous_users_members (user_flags : gmap Z Z) :
  ∃ dangerous,
    moderation.get_dangerous_users user_flags = (Ok dangerous, user_flags, []) ∧
    NoDup dangerous ∧
    ∀ user_id, user_id ∈ dangerous ↔ ∃ n, user_flags !! user_id = Some n ∧ (3 ≤ n)%Z.
Proof.
  eexists. split; [reflexivity|]. split.
  - apply (sublist_NoDup _ ((map_to_list user_flags).*1)).
    + apply NoDup_fst_map_to_list.
    + apply fmap_sublist, sublist_filter.
  - intros user_id. rewrite list_elem_of_fmap. split.
    + intros [[k n] [-> Hin]]. apply list_elem_of_filter in Hin as [Hn Hin].
      apply elem_of_map_to_list in Hin. exists n. split; assumption.
    + intros [n [Hlookup Hn]]. exists (user_id, n). split; [reflexivity|].
      apply list_elem_of_filter. split; [exact Hn|].
      apply elem_of_map_to_list. exact Hlookup.
Qed.

(** X10. [flag_user] answers [True] exactly when the user is in the list of
    dangerous users after the call; the list has no duplicates, and the
    call moves no other user into or out of it. *)
Theorem flag_user_agrees_with_dangerous_users (user_id : Z) (user_flags : gmap Z Z) :
  ∃ answer user_flags' before after,
    moderation.get_dangerous_users user_flags = (Ok before, user_flags, []) ∧
    moderation.flag_user user_id user_flags = (Ok answer, user_flags', []) ∧
    moderation.get_dangerous_users user_flags' = (Ok after, user_flags', []) ∧
    NoDup after ∧
    (answer = true ↔ user_id ∈ after) ∧
    (∀ other, other ≠ user_id → (other ∈ after ↔ other ∈ before)).
Proof.
  destruct (get_dangerous_users_members user_flags) as (before & Hbefore & _ & Hin_before).
  destruct (get_dangerous_users_members
              (<[user_id := default 0 (user_flags !! user_id) + 1]> user_flags))
    as (after & Hafter & Hnodup & Hin_after).
  eexists _, _, before, after.
  split; [exact Hbefore|]. split; [apply flag_user_run|].
  split; [exact Hafter|]. split; [exact Hnodup|]. split.
  - rewrite Hin_after, lookup_insert_eq, bool_decide_eq_true. split.
    + intros Hn. eexists. split; [reflexivity | exact Hn].
    + intros [n [[= <-] Hn]]. exact Hn.
  - intros other Hother. rewrite Hin_after, Hin_before.
    rewrite lookup_insert_ne by congruence. reflexivity.
Qed.

Lemma lower_char_idemp (c : ascii) :
  moderation.lower_char (moderation.lower_char c) = moderation.lower_char c.
Proof. destruct c as [[] [] [] [] [] [] [] []]; reflexivity. Qed.

Lemma lower_idemp (s : string) : moderation.lower (moderation.lower s) = moderation.lower s.
Proof.
  induction s as [|c s IH]; simpl; [reflexivity|].
  rewrite lower_char_idemp, IH. reflexivity.
Qed.

(** The answer of [moderate_text] is [False] exactly when a word of the
    list is found. *)
Lemma moderate_text_answer (text : string) (sender_id recipient_id : Z)
    (s : users_data.state) :
  fst (fst (moderation.moderate_text text sender_id recipient_id s)) =
    Ok (negb (existsb (λ word, moderation.str_in word (moderation.lower text))
                moderation.bad_words)).
Proof.
  unfold moderation.moderate_text. rewrite moderate_text_loop_run.
  destruct (existsb _ _); reflexivity.
Qed.

Lemma append_assoc (s t u : string) : (s +:+ t) +:+ u = s +:+ (t +:+ u).
Proof.
  induction s as [|c s IH]; [reflexivity|].
  change (String c ((s +:+ t) +:+ u) = String c (s +:+ (t +:+ u))).
  rewrite IH. reflexivity.
Qed.

(** A word found in a text is found in every text around it. *)
Lemma found_in_context (words : list string) (text before after : string) :
  existsb (λ word, moderation.str_in word (moderation.lower text)) words = true →
  existsb (λ word, moderation.str_in word
                     (moderation.lower (before +:+ text +:+ after))) words = true.
Proof.
  intros Hfound. apply existsb_exists in Hfound as (word & Hin & Hword).
  apply existsb_exists. exists word. split; [exact Hin|].
  apply str_in_spec in Hword as (pre & post & Heq).
  apply str_in_spec. rewrite !lower_app, Heq.
  exists (moderation.lower before +:+ pre), (post +:+ moderation.lower after).
  rewrite !append_assoc. reflexivity.
Qed.

(** X11. A text that [moderate_text] refuses is refused inside every longer
    text, whoever sends it and in whatever state; and the lower case form
    of a text gets the answer of the text. *)
Theorem moderate_text_context_and_case (text before after : string)
    (sender_id recipient_id sender_id' recipient_id' : Z) (s s' : users_data.state) :
  (fst (fst (moderation.moderate_text text sender_id recipient_id s)) = Ok false →
   fst (fst (moderation.moderate_text (before +:+ text +:+ after)
               sender_id' recipient_id' s')) = Ok false) ∧
  fst (fst (moderation.moderate_text (moderation.lower text) sender_id recipient_id s)) =
    fst (fst (moderation.moderate_text text sender_id recipient_id s)).
Proof.
  rewrite !moderate_text_answer. split.
  - destruct (existsb (λ word, moderation.str_in word (moderation.lower text))
                moderation.bad_words) eqn:Hfound; [|discriminate].
    intros _. rewrite (found_in_context _ _ before after Hfound). reflexivity.
  - rewrite lower_idemp. reflexivity.
Qed.

Lemma moderate_text_context_and_case_witness :
  fst (fst (moderation.moderate_text ("well, " +:+ "BADWORD3" +:+ "!") 1 2
              (users_data.State ∅ ∅ ∅))) = Ok false.
Proof.
  apply (proj1 (moderate_text_context_and_case "BADWORD3" "well, " "!" 3 4 1 2
                  (users_data.State ∅ ∅ ∅) (users_data.State ∅ ∅ ∅))).
  reflexivity.
Defined.

(** ** virtual_meetings: the roster *)

(** X12. While the identifiers in use are [1 .. len(meetings)],
    [create_meeting] returns an identifier that was free, stores the
    participants there, changes no other meeting and keeps the
    identifiers of that form. *)
Theorem create_meeting_fresh (users : list Z) (meetings : gmap Z (list Z)) :
  virtual_meetings.contiguous_ids meetings →
  ∃ meeting_id meetings',
    virtual_meetings.create_meeting users meetings = (Ok meeting_id, meetings', []) ∧
    meetings !! meeting_id = None ∧
    meetings' !! meeting_id = Some users ∧
    (∀ other, other ≠ meeting_id → meetings' !! other = meetings !! other) ∧
    virtual_meetings.contiguous_ids meetings'.
Proof.
  intros Hids. do 2 eexists. split; [reflexivity|].
  assert (meetings !! (Z.of_nat (size meetings) + 1)%Z = None) as Hfree.
  { destruct (meetings !! (Z.of_nat (size meetings) + 1)%Z) eqn:Hlookup; [|reflexivity].
    assert (is_Some (meetings !! (Z.of_nat (size meetings) + 1)%Z)) as Hsome by eauto.
    apply Hids in Hsome. lia. }
  split; [exact Hfree|]. split; [apply lookup_insert_eq|]. split.
  - intros other Hother. apply lookup_insert_ne. congruence.
  - intros k. rewrite map_size_insert_None by exact Hfree.
    destruct (decide (k = Z.of_nat (size meetings) + 1)%Z) as [->|Hk].
    + rewrite lookup_insert_eq. split; [lia | eauto].
    + rewrite lookup_insert_ne by congruence. rewrite (Hids k). lia.
Qed.

Lemma create_meeting_fresh_witness :
  ∃ meeting_id meetings',
    virtual_meetings.create_meeting [7; 8] {[1 := [5; 6]]} = (Ok meeting_id, meetings', []) ∧
    ({[1 := [5; 6]]} : gmap Z (list Z)) !! meeting_id = None ∧
    meetings' !! meeting_id = Some [7; 8].
Proof.
  assert (virtual_meetings.contiguous_ids {[1 := [5; 6]]}) as Hids.
  { intros k. rewrite map_size_singleton.
    destruct (decide (k = 1)) as [->|Hk].
    - rewrite lookup_singleton_eq. split; [lia | eauto].
    - rewrite lookup_singleton_ne by congruence. split; [intros [x Hx]; discriminate | lia]. }
  destruct (create_meeting_fresh [7; 8] {[1 := [5; 6]]} Hids)
    as (meeting_id & meetings' & Hrun & Hfree & Hnew & _).
  exists meeting_id, meetings'. repeat split; assumption.
Defined.

(** X13. After a meeting other than the last one has ended, the identifier
    that [create_meeting] picks is the one of the last meeting: the new
    participants replace those of a meeting that is still running. *)
Theorem create_meeting_after_end_overwrites (ended : Z) (users gone running : list Z)
    (meetings : gmap Z (list Z)) :
  meetings !! ended = Some gone →
  ended ≠ Z.of_nat (size meetings) →
  meetings !! Z.of_nat (size meetings) = Some running →
  ∃ meetings',
    (virtual_meetings.end_meeting ended;; virtual_meetings.create_meeting users) meetings =
      (Ok (Z.of_nat (size meetings)), meetings', []) ∧
    delete ended meetings !! Z.of_nat (size meetings) = Some running ∧
    meetings' !! Z.of_nat (size meetings) = Some users.
Proof.
  intros Hended Hne Hrunning.
  unfold virtual_meetings.end_meeting, virtual_meetings.create_meeting.
  run. rewrite Hended. simpl.
  assert (size (delete ended meetings) = pred (size meetings)) as Hsize
    by (apply map_size_delete_Some; eauto).
  assert (size meetings ≠ 0%nat) as Hpos.
  { apply map_size_non_empty_iff. intros ->. rewrite lookup_empty in Hended. discriminate. }
  assert (Z.of_nat (size (delete ended meetings)) + 1 = Z.of_nat (size meetings))%Z as ->
    by lia.
  eexists. split; [reflexivity|]. split.
  - rewrite lookup_delete_ne by exact Hne. exact Hrunning.
  - apply lookup_insert_eq.
Qed.

Lemma create_meeting_after_end_overwrites_witness :
  ∃ meetings',
    (virtual_meetings.end_meeting 1;; virtual_meetings.create_meeting [9])
      {[1 := [5; 6]; 2 := [7; 8]]} = (Ok 2, meetings', []) ∧
    meetings' !! 2 = Some [9].
Proof.
  destruct (create_meeting_after_end_overwrites 1 [9] [5; 6] [7; 8]
              {[1 := [5; 6]; 2 := [7; 8]]})
    as (meetings' & Hrun & _ & Hnew); [reflexivity | discriminate | reflexivity |].
  exists meetings'. split; assumption.
Defined.

Lemma list_remove_first (x : Z) (l1 l2 : list Z) :
  x ∉ l1 → virtual_meetings.list_remove x (l1 ++ x :: l2) = l1 ++ l2.
Proof.
  induction l1 as [|y l1 IH]; intros Hnotin; simpl.
  - rewrite bool_decide_eq_true_2 by reflexivity. reflexivity.
  - apply not_elem_of_cons in Hnotin as [Hne Hnotin].
    rewrite bool_decide_eq_false_2 by exact Hne. rewrite IH by exact Hnotin. reflexivity.
Qed.

(** X14. A user that joins a meeting it was not in, and leaves it, leaves the
    roster as it was. *)
Theorem join_leave_round_trip (meeting_id user_id : Z) (participants : list Z)
    (meetings : gmap Z (list Z)) :
  meetings !! meeting_id = Some participants →
  user_id ∉ participants →
  (virtual_meetings.join_meeting meeting_id user_id;;
   virtual_meetings.remove_user_from_meeting meeting_id user_id) meetings =
    (Ok tt, meetings, []).
Proof.
  intros Hmeeting Hnotin.
  unfold virtual_meetings.join_meeting, virtual_meetings.remove_user_from_meeting.
  run. rewrite Hmeeting. simpl. rewrite lookup_insert_eq.
  rewrite bool_decide_eq_true_2 by (apply elem_of_app; right; apply list_elem_of_singleton;
                                     reflexivity).
  simpl. rewrite list_remove_first by exact Hnotin.
  rewrite app_nil_r, insert_insert_eq, insert_id by exact Hmeeting. reflexivity.
Qed.

Lemma join_leave_round_trip_witness :
  (virtual_meetings.join_meeting 1 7;; virtual_meetings.remove_user_from_meeting 1 7)
    {[1 := [5; 6]]} = (Ok tt, {[1 := [5; 6]]}, []).
Proof.
  apply (join_leave_round_trip 1 7 [5; 6]); [reflexivity|].
  intros Hin. apply elem_of_cons in Hin as [Heq|Hin]; [discriminate|].
  apply elem_of_cons in Hin as [Heq|Hin]; [discriminate|].
  exact (not_elem_of_nil _ Hin).
Defined.

(** X15. In a known meeting, [remove_user_from_meeting] takes the first
    occurrence of the user, and nothing else, out of the roster of that
    meeting, so a user that joined twice is still in it after leaving
    once; for a user that is not in the roster it prints its error line
    and changes nothing. *)
Theorem remove_user_from_known_meeting (meeting_id user_id : Z) (participants : list Z)
    (meetings : gmap Z (list Z)) :
  meetings !! meeting_id = Some participants →
  (user_id ∈ participants →
   ∃ earlier later meetings',
     participants = earlier ++ (user_id :: later) ∧ (user_id ∉ earlier) ∧
     virtual_meetings.remove_user_from_meeting meeting_id user_id meetings =
       (Ok tt, meetings', []) ∧
     meetings' !! meeting_id = Some (earlier ++ later)) ∧
  (user_id ∉ participants →
   virtual_meetings.remove_user_from_meeting meeting_id user_id meetings =
     (Ok tt, meetings,
      [EPrint ("Error: User with ID " +:+ pretty user_id +:+
               " not found in meeting " +:+ pretty meeting_id +:+ ".")])).
Proof.
  intros Hmeeting. unfold virtual_meetings.remove_user_from_meeting. run.
  rewrite Hmeeting. split.
  - intros Hin. rewrite bool_decide_eq_true_2 by exact Hin.
    apply list_elem_of_split_l in Hin as (earlier & later & -> & Hnotin).
    exists earlier, later. eexists. split; [reflexivity|]. split; [exact Hnotin|].
    split; [reflexivity|].
    rewrite lookup_insert_eq, list_remove_first by exact Hnotin. reflexivity.
  - intros Hnotin. rewrite bool_decide_eq_false_2 by exact Hnotin. reflexivity.
Qed.

Lemma remove_user_from_known_meeting_witness :
  (∃ earlier later meetings',
     [5; 7; 6; 7] = earlier ++ (7 :: later) ∧
     virtual_meetings.remove_user_from_meeting 1 7 {[1 := [5; 7; 6; 7]]} =
       (Ok tt, meetings', []) ∧
     meetings' !! 1 = Some (earlier ++ later)) ∧
  virtual_meetings.remove_user_from_meeting 1 9 {[1 := [5; 7; 6; 7]]} =
    (Ok tt, {[1 := [5; 7; 6; 7]]},
     [EPrint "Error: User with ID 9 not found in meeting 1."]).
Proof.
  destruct (remove_user_from_known_meeting 1 7 [5; 7; 6; 7] {[1 := [5; 7; 6; 7]]}
              (lookup_singleton_eq _ _)) as [Hin _].
  destruct (remove_user_from_known_meeting 1 9 [5; 7; 6; 7] {[1 := [5; 7; 6; 7]]}
              (lookup_singleton_eq _ _)) as [_ Hout].
  split.
  - destruct Hin as (earlier & later & meetings' & Hsplit & _ & Hrun & Hroster).
    + apply elem_of_cons. right. apply elem_of_cons. left. reflexivity.
    + exists earlier, later, meetings'. repeat split; assumption.
  - apply Hout. intros Hmem.
    repeat (apply elem_of_cons in Hmem as [Heq|Hmem]; [discriminate|]).
    exact (not_elem_of_nil _ Hmem).
Defined.

(** X16. [end_meeting] on a known meeting removes that meeting and no other;
    joining it or ending it afterwards is answered with the not-found
    line. *)
Theorem end_meeting_known (meeting_id user_id : Z) (participants : list Z)
    (meetings : gmap Z (list Z)) :
  meetings !! meeting_id = Some participants →
  virtual_meetings.end_meeting meeting_id meetings = (Ok tt, delete meeting_id meetings, []) ∧
  (∀ other, other ≠ meeting_id → delete meeting_id meetings !! other = meetings !! other) ∧
  (virtual_meetings.end_meeting meeting_id;;
   virtual_meetings.join_meeting meeting_id user_id;;
   virtual_meetings.end_meeting meeting_id) meetings =
    (Ok tt, delete meeting_id meetings,
     [EPrint ("Error: Meeting with ID " +:+ pretty meeting_id +:+ " not found.");
      EPrint ("Error: Meeting with ID " +:+ pretty meeting_id +:+ " not found.")]).
Proof.
  intros Hmeeting.
  unfold virtual_meetings.end_meeting, virtual_meetings.join_meeting. run.
  rewrite Hmeeting. simpl. repeat (rewrite lookup_delete_eq; simpl).
  split; [reflexivity|]. split; [|reflexivity].
  intros other Hother. apply lookup_delete_ne. congruence.
Qed.

Lemma end_meeting_known_witness :
  (virtual_meetings.end_meeting 1;;
   virtual_meetings.join_meeting 1 7;;
   virtual_meetings.end_meeting 1) {[1 := [5; 6]]} =
    (Ok tt, delete 1 {[1 := [5; 6]]},
     [EPrint "Error: Meeting with ID 1 not found.";
      EPrint "Error: Meeting with ID 1 not found."]).
Proof.
  exact (proj2 (proj2 (end_meeting_known 1 7 [5; 6] {[1 := [5; 6]]}
                         (lookup_singleton_eq _ _)))).
Defined.

(** ** The two get_meeting_compatibility functions as a whole *)

(** The clamped mean is a value only for two floats. *)
Lemma total_compatibility_ok (x y v : value) :
  virtual_meetings.total_compatibility x y = Ok v → x ≠ PyNone ∧ y ≠ PyNone.
Proof.
  destruct x as [|p|b|], y as [|q|b'|]; intros Hrun; try (split; discriminate);
    exfalso; revert Hrun;
    unfold virtual_meetings.total_compatibility, mbind, result_bind, py.rbind;
    cbn [py.add]; discriminate.
Qed.

(** X17. Whatever the user directory and the two scorers answer,
    [virtual_meetings.get_meeting_compatibility] returns, if it returns,
    a number between 0 and 1 or NaN: never [None], an infinity or a
    number out of range.  With both records there and two finite scores
    it returns a number between 0 and 1; with the trait scorer answering
    [None] it raises [TypeError]. *)
Theorem virtual_compatibility_in_range
    (get_user_data : Z → option (gmap string pyobj))
    (compare_interests : pyobj → pyobj → result value)
    (compare_psychological_traits : Z → Z → result value)
    (user_id1 user_id2 : Z) :
  (∀ v,
     virtual_meetings.get_meeting_compatibility get_user_data compare_interests
       compare_psychological_traits user_id1 user_id2 = Ok v →
     v = PyNaN ∨ ∃ q, v = PyNum q ∧ (0 <= q <= 1)%Q) ∧
  (∀ user1_data user2_data i traits_answer,
     get_user_data user_id1 = Some user1_data → user1_data ≠ ∅ →
     get_user_data user_id2 = Some user2_data → user2_data ≠ ∅ →
     compare_interests (dict_get user1_data "interests" (PList []))
       (dict_get user2_data "interests" (PList [])) = Ok (PyNum i) →
     compare_psychological_traits user_id1 user_id2 = Ok traits_answer →
     match traits_answer with
     | PyNone =>
         virtual_meetings.get_meeting_compatibility get_user_data compare_interests
           compare_psychological_traits user_id1 user_id2 = Raise TypeError
     | PyNum t =>
         ∃ q, virtual_meetings.get_meeting_compatibility get_user_data compare_interests
                compare_psychological_traits user_id1 user_id2 = Ok (PyNum q) ∧
              (0 <= q <= 1)%Q
     | PyNaN =>
         virtual_meetings.get_meeting_compatibility get_user_data compare_interests
           compare_psychological_traits user_id1 user_id2 = Ok PyNaN
     | PyInf positive =>
         virtual_meetings.get_meeting_compatibility get_user_data compare_interests
           compare_psychological_traits user_id1 user_id2 =
         Ok (PyNum (if positive then 1 else 0))
     end).
Proof.
  unfold virtual_meetings.get_meeting_compatibility. split.
  - intros v.
    destruct (negb (truthy (get_user_data user_id1)) || negb (truthy (get_user_data user_id2))).
    + intros [= <-]. right. exists 0%Q. split; [reflexivity | split; discriminate].
    + unfold mbind, result_bind, py.rbind.
      destruct (as_dict (get_user_data user_id1)) as [d1|]; [|discriminate].
      destruct (as_dict (get_user_data user_id2)) as [d2|]; [|discriminate].
      destruct (compare_interests _ _) as [i|]; [|discriminate].
      destruct (compare_psychological_traits _ _) as [t|]; [|discriminate].
      intros Hrun. destruct (total_compatibility_ok _ _ _ Hrun) as [Hi Ht].
      destruct (total_compatibility_floats i t Hi Ht) as (v' & Hv' & Hkind & _).
      rewrite Hv' in Hrun. injection Hrun as <-. exact Hkind.
  - intros user1_data user2_data i traits_answer Hdata1 Hne1 Hdata2 Hne2 Hinterests Htraits.
    rewrite Hdata1, Hdata2. unfold truthy.
    rewrite !bool_decide_eq_false_2 by assumption. simpl.
    unfold mbind, result_bind, py.rbind.
    rewrite Hinterests, Htraits.
    destruct traits_answer as [|t|[|]|].
    + reflexivity.
    + eexists. split; [apply total_compatibility_num|].
      apply (clamp_range ((i + t) / 2)).
    + unfold virtual_meetings.total_compatibility, mbind, result_bind, py.rbind.
      cbn [py.add py.div]. rewrite scale_inf_2. reflexivity.
    + unfold virtual_meetings.total_compatibility, mbind, result_bind, py.rbind.
      cbn [py.add py.div]. rewrite scale_inf_2. reflexivity.
    + reflexivity.
Qed.

Lemma virtual_compatibility_in_range_witness :
  (PyNum 1 = PyNaN ∨ ∃ q, PyNum 1 = PyNum q ∧ (0 <= q <= 1)%Q) ∧
  virtual_meetings.get_meeting_compatibility
    (λ _, Some {["interests" := PList [PStr "music"]]})
    (λ _ _, Ok (PyNum 1)) (λ _ _, Ok PyNone) 1 2 = Raise TypeError ∧
  virtual_meetings.get_meeting_compatibility
    (λ _, Some {["interests" := PList [PStr "music"]]})
    (λ _ _, Ok (PyNum 1)) (λ _ _, Ok PyNaN) 1 2 = Ok PyNaN.
Proof.
  split; [|split].
  - apply (proj1 (virtual_compatibility_in_range
                    (λ _, Some {["interests" := PList [PStr "music"]]})
                    (λ _ _, Ok (PyNum 1)) (λ _ _, Ok (PyNum 2)) 1 2)).
    reflexivity.
  - apply (proj2 (virtual_compatibility_in_range
                    (λ _, Some {["interests" := PList [PStr "music"]]})
                    (λ _ _, Ok (PyNum 1)) (λ _ _, Ok PyNone) 1 2)
             {["interests" := PList [PStr "music"]]}
             {["interests" := PList [PStr "music"]]} 1%Q PyNone);
      try reflexivity; apply insert_non_empty.
  - apply (proj2 (virtual_compatibility_in_range
                    (λ _, Some {["interests" := PList [PStr "music"]]})
                    (λ _ _, Ok (PyNum 1)) (λ _ _, Ok PyNaN) 1 2)
             {["interests" := PList [PStr "music"]]}
             {["interests" := PList [PStr "music"]]} 1%Q PyNaN);
      try reflexivity; apply insert_non_empty.
Defined.

(** With a trait score of [None] the weighted sum raises. *)
Lemma compatibility_rate_none (proximity_score interests_score : value) :
  ∃ e, geolocation_meetings.compatibility_rate proximity_score interests_score PyNone =
       Raise e.
Proof.
  destruct proximity_score, interests_score; eexists; reflexivity.
Qed.

(** X18. [geolocation_meetings.get_meeting_compatibility] never returns a
    score other than 0, whatever the locations and the users are: either
    it prints that the locations could not be retrieved and returns 0, or
    it raises. *)
Theorem geolocation_compatibility_zero_or_raises `{FloatOps F}
    (get_user_location : Z → option (gmap string F))
    (user1 user2 : geolocation_meetings.Profile) :
  geolocation_meetings.get_meeting_compatibility get_user_location user1 user2 tt =
    (Ok (PyNum 0), tt, [EPrint "Could not retrieve user locations."]) ∨
  ∃ e, geolocation_meetings.get_meeting_compatibility get_user_location user1 user2 tt =
         (Raise e, tt, []).
Proof.
  unfold geolocation_meetings.get_meeting_compatibility.
  destruct (negb (truthy (get_user_location (geolocation_meetings.profile_user_id user1)))
            || negb (truthy (get_user_location (geolocation_meetings.profile_user_id user2)))).
  - left. reflexivity.
  - right. run.
    destruct (as_dict (get_user_location (geolocation_meetings.profile_user_id user1)))
      as [location1|e]; [|eexists; reflexivity].
    destruct (as_dict (get_user_location (geolocation_meetings.profile_user_id user2)))
      as [location2|e]; [|eexists; reflexivity].
    destruct (getitem location1 "latitude") as [lat1|e]; [|eexists; reflexivity].
    destruct (getitem location1 "longitude") as [lon1|e]; [|eexists; reflexivity].
    destruct (getitem location2 "latitude") as [lat2|e]; [|eexists; reflexivity].
    destruct (getitem location2 "longitude") as [lon2|e]; [|eexists; reflexivity].
    destruct (geolocation_meetings.calculate_distance _ _) as [distance|e];
      [|eexists; reflexivity].
    unfold geolocation_meetings.compare_psychological_traits.
    match goal with
    | |- context [geolocation_meetings.compatibility_rate ?p ?i PyNone] =>
        destruct (compatibility_rate_none p i) as [e ->]
    end.
    eexists. reflexivity.
Qed.

(** ** geolocation_meetings: the finder on longer lists and larger radii *)

(** The loop from a list built so far is the loop from the empty list,
    with its result appended. *)
Lemma find_users_loop_acc `{FloatOps F} (target_user : geolocation_meetings.User F)
    (users : list (geolocation_meetings.User F)) (radius : F)
    (acc : list (geolocation_meetings.User F)) :
  geolocation_meetings.find_users_loop target_user users radius acc =
    (found ← geolocation_meetings.find_users_loop target_user users radius [];
     Ok (acc ++ found)).
Proof.
  revert acc. induction users as [|user users IH]; intros acc.
  - simpl. rewrite app_nil_r. reflexivity.
  - cbn [geolocation_meetings.find_users_loop].
    destruct (bool_decide _); [|apply IH].
    unfold mbind, result_bind, py.rbind.
    destruct (geolocation_meetings.calculate_distance target_user user) as [distance|e];
      [|reflexivity].
    destruct (f_le distance radius); [|apply IH].
    rewrite (IH (acc ++ [user])), (IH ([] ++ [user])).
    unfold mbind, result_bind, py.rbind.
    destruct (geolocation_meetings.find_users_loop target_user users radius []);
      [|reflexivity].
    rewrite <- app_assoc. reflexivity.
Qed.

Lemma find_users_loop_app `{FloatOps F} (target_user : geolocation_meetings.User F)
    (users1 users2 : list (geolocation_meetings.User F)) (radius : F)
    (acc : list (geolocation_meetings.User F)) :
  geolocation_meetings.find_users_loop target_user (users1 ++ users2) radius acc =
    (found ← geolocation_meetings.find_users_loop target_user users1 radius acc;
     geolocation_meetings.find_users_loop target_user users2 radius found).
Proof.
  revert acc. induction users1 as [|user users1 IH]; intros acc; [reflexivity|].
  cbn [app geolocation_meetings.find_users_loop].
  destruct (bool_decide _); [|apply IH].
  unfold mbind, result_bind, py.rbind.
  destruct (geolocation_meetings.calculate_distance target_user user) as [distance|e];
    [|reflexivity].
  destruct (f_le distance radius); apply IH.
Qed.

Lemma filter_sublist_impl {A} (P Q : A → Prop) `{∀ x, Decision (P x)} `{∀ x, Decision (Q x)}
    (l : list A) :
  (∀ x, P x → Q x) → filter P l `sublist_of` filter Q l.
Proof.
  intros Himpl. induction l as [|x l IH]; [constructor|].
  rewrite !filter_cons. destruct (decide (P x)) as [HP|HP].
  - rewrite decide_True by (apply Himpl; exact HP). apply sublist_skip. exact IH.
  - destruct (decide (Q x)); [apply sublist_cons|]; exact IH.
Qed.

(** X20. The finder works candidate by candidate: on two lists one after
    the other it does what it does on the first and then on the second,
    raising where either raises and returning the two results one after
    the other.  With a larger radius it returns whenever it returned
    with the smaller one, and the users found before are still found, in
    their order; this uses that [<=] on floats is transitive. *)
Theorem find_users_app_and_radius `{FloatOps F} (target_user : geolocation_meetings.User F)
    (users1 users2 : list (geolocation_meetings.User F)) (radius1 radius2 : F) :
  geolocation_meetings.find_users_within_radius target_user (users1 ++ users2) radius1 =
    (found1 ← geolocation_meetings.find_users_within_radius target_user users1 radius1;
     found2 ← geolocation_meetings.find_users_within_radius target_user users2 radius1;
     Ok (found1 ++ found2)) ∧
  ((∀ x y z : F, f_le x y = true → f_le y z = true → f_le x z = true) →
   f_le radius1 radius2 = true →
   ∀ found1,
     geolocation_meetings.find_users_within_radius target_user users1 radius1 = Ok found1 →
     ∃ found2,
       geolocation_meetings.find_users_within_radius target_user users1 radius2 = Ok found2 ∧
       found1 `sublist_of` found2).
Proof.
  split.
  - unfold geolocation_meetings.find_users_within_radius.
    rewrite find_users_loop_app. unfold mbind, result_bind, py.rbind.
    destruct (geolocation_meetings.find_users_loop target_user users1 radius1 [])
      as [found1|e]; [|reflexivity].
    apply (find_users_loop_acc target_user users2 radius1 found1).
  - intros Htrans Hradius found1 Hrun1.
    unfold geolocation_meetings.find_users_within_radius in *.
    pose proof (find_users_loop_spec target_user users1 radius1 []) as Hspec1.
    pose proof (find_users_loop_spec target_user users1 radius2 []) as Hspec2.
    rewrite Hrun1 in Hspec1. destruct Hspec1 as [Hall ->].
    destruct (geolocation_meetings.find_users_loop target_user users1 radius2 [])
      as [found2|e].
    + destruct Hspec2 as [_ ->]. eexists. split; [reflexivity|].
      simpl. apply filter_sublist_impl. intros user [Hid Hnear]. split; [exact Hid|].
      unfold geolocation_meetings.within_radius in *.
      destruct (geolocation_meetings.calculate_distance target_user user) as [distance|];
        [|discriminate].
      exact (Htrans _ _ _ Hnear Hradius).
    + destruct Hspec2 as (earlier & user & later & -> & Hid & Hraise & _).
      destruct (Hall user) as [distance Hdistance]; [|exact Hid|congruence].
      apply elem_of_app. right. apply elem_of_cons. left. reflexivity.
Qed.

Lemma find_users_app_and_radius_witness :
  ∃ found2,
    geolocation_meetings.find_users_within_radius (H := exact.float)
      (geolocation_meetings.mkUser 1 "Ann" 48%R 2%R)
      [geolocation_meetings.mkUser 2 "Bob" 48%R 2%R] 10%R = Ok found2 ∧
    [geolocation_meetings.mkUser 2 "Bob" 48%R 2%R] `sublist_of` found2.
Proof.
  apply (proj2 (find_users_app_and_radius (H := exact.float)
                  (geolocation_meetings.mkUser 1 "Ann" 48%R 2%R)
                  [geolocation_meetings.mkUser 2 "Bob" 48%R 2%R] [] 5%R 10%R)).
  - intros x y z Hxy Hyz. simpl in *.
    apply bool_decide_eq_true in Hxy, Hyz. apply bool_decide_eq_true. lra.
  - simpl. apply bool_decide_eq_true. lra.
  - unfold geolocation_meetings.find_users_within_radius. simpl.
    rewrite exact_distance_same_place. simpl.
    rewrite bool_decide_eq_true_2 by lra. reflexivity.
Defined.

(** ** Interest similarity: range and extremes *)

Lemma Qdiv_eq_iff (p q c : Q) : ¬ (q == 0)%Q → (p / q == c)%Q ↔ (p == c * q)%Q.
Proof.
  intros Hq. split; intros Heq.
  - rewrite <- Heq. rewrite Qmult_comm. symmetry. apply Qmult_div_r. exact Hq.
  - rewrite Heq. apply Qdiv_mult_l. exact Hq.
Qed.

Lemma inject_size_pos (m : nat) : m ≠ 0%nat → (0 < inject_Z (Z.of_nat m))%Q.
Proof. intros Hm. rewrite <- (Zlt_Qlt 0). lia. Qed.

(** A quotient of two sizes, the first at most the second. *)
Lemma size_quotient_range (n m : nat) :
  (n ≤ m)%nat → m ≠ 0%nat →
  (0 <= inject_Z (Z.of_nat n) / inject_Z (Z.of_nat m) <= 1)%Q.
Proof.
  intros Hle Hm. pose proof (inject_size_pos m Hm) as Hpos.
  assert (0 <= inject_Z (Z.of_nat n))%Q as Hn by (rewrite <- (Zle_Qle 0); lia).
  assert (inject_Z (Z.of_nat n) <= inject_Z (Z.of_nat m))%Q as Hnm
    by (rewrite <- Zle_Qle; lia).
  split.
  - apply Qle_shift_div_l; [exact Hpos | lra].
  - apply Qle_shift_div_r; [exact Hpos | lra].
Qed.

Lemma size_quotient_one (n m : nat) :
  m ≠ 0%nat →
  (inject_Z (Z.of_nat n) / inject_Z (Z.of_nat m) == 1)%Q ↔ n = m.
Proof.
  intros Hm. pose proof (inject_size_pos m Hm) as Hpos.
  rewrite Qdiv_eq_iff by lra. rewrite Qmult_1_l, inject_Z_injective. lia.
Qed.

Lemma size_quotient_zero (n m : nat) :
  m ≠ 0%nat →
  (inject_Z (Z.of_nat n) / inject_Z (Z.of_nat m) == 0)%Q ↔ n = 0%nat.
Proof.
  intros Hm. pose proof (inject_size_pos m Hm) as Hpos.
  rewrite Qdiv_eq_iff by lra. rewrite Qmult_0_l.
  change 0%Q with (inject_Z 0). rewrite inject_Z_injective. lia.
Qed.

Lemma union_size_nonzero (a b : gset string) : a ∪ b ≠ ∅ → size (a ∪ b) ≠ 0%nat.
Proof.
  intros Hne Hsize. apply Hne. apply leibniz_equiv, size_empty_iff. exact Hsize.
Qed.

(** X23. Both interest similarities are scores between 0 and 1, and they
    depend on each of the two lists only through its set of elements:
    order and repetitions do not count, in the first list or in the
    second. *)
Theorem interest_similarity_range (A A' B B' : list string) :
  (0 <= geolocation_meetings.compare_interests A B <= 1)%Q ∧
  (0 <= speed_dating.interests_compatibility A B <= 1)%Q ∧
  ((∀ x, x ∈ A ↔ x ∈ A') → (∀ x, x ∈ B ↔ x ∈ B') →
   geolocation_meetings.compare_interests A B = geolocation_meetings.compare_interests A' B' ∧
   speed_dating.interests_compatibility A B = speed_dating.interests_compatibility A' B').
Proof.
  assert (size (list_to_set A ∩ list_to_set B : gset string)
          ≤ size (list_to_set A ∪ list_to_set B : gset string))%nat as Hsize.
  { apply subseteq_size. intros x Hx. apply elem_of_intersection in Hx as [Hx _].
    apply elem_of_union. left. exact Hx. }
  split; [|split].
  - unfold geolocation_meetings.compare_interests. case_bool_decide as Hempty.
    + split; discriminate.
    + apply size_quotient_range; [exact Hsize | apply union_size_nonzero; exact Hempty].
  - unfold speed_dating.interests_compatibility. case_bool_decide as Hpos.
    + apply size_quotient_range; [exact Hsize | lia].
    + split; discriminate.
  - intros HsameA HsameB.
    assert (list_to_set A =@{gset string} list_to_set A') as HsetsA.
    { apply set_eq. intros x. rewrite !elem_of_list_to_set. apply HsameA. }
    assert (list_to_set B =@{gset string} list_to_set B') as HsetsB.
    { apply set_eq. intros x. rewrite !elem_of_list_to_set. apply HsameB. }
    unfold geolocation_meetings.compare_interests, speed_dating.interests_compatibility.
    rewrite HsetsA, HsetsB. split; reflexivity.
Qed.

Lemma interest_similarity_range_witness :
  geolocation_meetings.compare_interests ["music"; "hiking"; "music"] ["music"; "chess"] =
  geolocation_meetings.compare_interests ["hiking"; "music"] ["chess"; "music"; "chess"] ∧
  speed_dating.interests_compatibility ["music"; "hiking"; "music"] ["music"; "chess"] =
  speed_dating.interests_compatibility ["hiking"; "music"] ["chess"; "music"; "chess"].
Proof.
  apply (proj2 (proj2 (interest_similarity_range ["music"; "hiking"; "music"]
                         ["hiking"; "music"] ["music"; "chess"]
                         ["chess"; "music"; "chess"]))).
  - intros x. rewrite !elem_of_cons, !elem_of_nil. tauto.
  - intros x. rewrite !elem_of_cons, !elem_of_nil. tauto.
Defined.

(** X24. When some interest is listed, [compare_interests] is 1 exactly for
    two lists with the same set of interests, and 0 exactly for two lists
    with no interest in common. *)
Theorem compare_interests_extremes (A B : list string) :
  let a : gset string := list_to_set A in
  let b : gset string := list_to_set B in
  a ∪ b ≠ ∅ →
  ((geolocation_meetings.compare_interests A B == 1)%Q ↔ a = b) ∧
  ((geolocation_meetings.compare_interests A B == 0)%Q ↔ a ∩ b = ∅).
Proof.
  simpl. intros Hne. unfold geolocation_meetings.compare_interests.
  rewrite bool_decide_eq_false_2 by exact Hne.
  pose proof (union_size_nonzero _ _ Hne) as Hsize.
  rewrite size_quotient_one, size_quotient_zero by exact Hsize. split.
  - split.
    + intros Heq.
      assert (list_to_set A ∩ list_to_set B =@{gset string}
              list_to_set A ∪ list_to_set B) as Hsets.
      { apply set_subseteq_size_eq; [|lia].
        intros x Hx. apply elem_of_intersection in Hx as [Hx _].
        apply elem_of_union. left. exact Hx. }
      apply set_eq. intros x. split; intros Hx.
      * assert (x ∈ list_to_set A ∩ list_to_set B) as Hboth
          by (rewrite Hsets; apply elem_of_union; left; exact Hx).
        apply elem_of_intersection in Hboth as [_ Hb]. exact Hb.
      * assert (x ∈ list_to_set A ∩ list_to_set B) as Hboth
          by (rewrite Hsets; apply elem_of_union; right; exact Hx).
        apply elem_of_intersection in Hboth as [Ha _]. exact Ha.
    + intros ->.
      assert (list_to_set B ∩ list_to_set B =@{gset string} list_to_set B) as ->
        by apply intersection_idemp_L.
      assert (list_to_set B ∪ list_to_set B =@{gset string} list_to_set B) as ->
        by apply union_idemp_L.
      reflexivity.
  - rewrite size_empty_iff. split; intros Hempty.
    + apply leibniz_equiv. exact Hempty.
    + rewrite Hempty. reflexivity.
Qed.

Lemma compare_interests_extremes_witness :
  (geolocation_meetings.compare_interests ["music"] ["hiking"] == 0)%Q.
Proof.
  apply (proj2 (compare_interests_extremes ["music"] ["hiking"]
                  ltac:(vm_compute; discriminate))).
  vm_compute. reflexivity.
Defined.
